(** * SourceCodeModel: per-line cost annotation of a source listing

    A shallow embedding of [src/models/sourcecodemodel.cpp] (hotspot).

    Conventions of the embedding:
    - a C++ [int] is a [Z]; the values the program handles are those of
      [int_range].  Signed overflow is undefined in C++ and none of the
      statements below relies on it;
    - [quint64] addresses are [N];
    - [QString] is [string], the list of displayed lines is a [list string],
      [QSet<int>] is [gset Z], [QHash<K, V>] is [gmap K V];
    - a member function that mutates [*this] takes the model and returns the
      new one;
    - [beginResetModel]/[endResetModel] and [emit dataChanged] only notify
      the attached views and carry no state of the model. *)

From Stdlib Require Import ZArith NArith.
From stdpp Require Import gmap strings list.

Local Open Scope Z_scope.

(** ** Constants of the platform and of the header *)

Definition INT_MAX : Z := 2147483647.
Definition INT_MIN : Z := -2147483648.

Definition int_range (z : Z) : Prop := INT_MIN ≤ z ≤ INT_MAX.

(** The [Columns] enumeration of the class. *)
Definition SourceCodeColumn : Z := 0.
Definition SourceCodeLineNumber : Z := 1.
Definition COLUMN_COUNT : Z := 2.

(** [QDir::separator()] on the platforms hotspot runs on. *)
Definition separator : string := "/".

(** ** The cost data the model reads ([Data::] in the program) *)

Module Data.

(** Modelled from the spec: [Data::Symbol] is declared outside the file;
    the model uses it as a key and reads its human-readable label. *)
Record Symbol := mkSymbol { symbol : string; prettySymbol : string }.

#[global] Instance Symbol_eq_dec : EqDecision Symbol.
Proof. solve_decision. Defined.

#[global] Instance Symbol_countable : Countable Symbol.
Proof.
  refine (inj_countable' (λ s, (symbol s, prettySymbol s))
                         (λ p, mkSymbol p.1 p.2) _).
  by intros [].
Defined.

(** Modelled from the spec: a self-cost vector, one value per cost type. *)
Abbreviation ItemCost := (list N).

(** Modelled from the spec: the costs recorded for one instruction address;
    the model reads the self cost. *)
Record LocationCost := mkLocationCost { selfCost : ItemCost; inclusiveCost : ItemCost }.

(** Modelled from the spec: the per-symbol map from instruction address to
    cost. *)
Record CallerCalleeEntry := mkEntry { offsetMap : gmap N LocationCost }.

(** Modelled from the spec: the CostTable.  [Data::Costs] is declared
    outside the file.  Per cost-type index it holds a mapping from an id
    (here a source line number) to an accumulated cost, together with the
    type's name and grand total.  A line never present has cost zero and
    accumulation is additive. *)
Record Costs := mkCosts {
  typeNames : list string;
  totalCosts : list N;
  costs : list (gmap Z N)
}.

Definition emptyCosts : Costs := mkCosts [] [] [].

Definition numTypes (c : Costs) : nat := length (typeNames c).

Definition typeName (c : Costs) (type : nat) : string :=
  default "" (typeNames c !! type).

Definition totalCost (c : Costs) (type : nat) : N :=
  default 0%N (totalCosts c !! type).

Definition cost (c : Costs) (type : nat) (id : Z) : N :=
  default 0%N (costs c !! type ≫= (.!! id)).

Definition initializeCostsFrom (rhs : Costs) (c : Costs) : Costs :=
  mkCosts (typeNames rhs) (totalCosts rhs) (replicate (numTypes rhs) ∅).

Definition add (id : Z) (delta : ItemCost) (c : Costs) : Costs :=
  mkCosts (typeNames c) (totalCosts c)
    (imap (λ type perId,
             <[id := (default 0 (perId !! id) + default 0 (delta !! type))%N]> perId)
          (costs c)).

(** Modelled from the spec: the cost context, the entries per symbol and the
    cost-type catalog with its totals. *)
Record CallerCalleeResults := mkResults {
  entries : gmap Symbol CallerCalleeEntry;
  selfCosts : Costs
}.

(** Modelled from the spec: [entry(symbol)] resolves the per-symbol cost
    entry, an empty one when the context has none for the symbol. *)
Definition entry (r : CallerCalleeResults) (s : Symbol) : CallerCalleeEntry :=
  default (mkEntry ∅) (entries r !! s).

End Data.

(** ** The disassembly handed to the model *)

(** Modelled from the spec: [DisassemblyOutput] is declared outside the file.
    It is a symbol, a source file name and an ordered list of instruction
    entries, of which the model reads the address and the resolved source
    line (an [int], 0 when unresolved). *)
Record DisassemblyLine := mkLine { addr : N; sourceCodeLine : Z }.

#[global] Instance DisassemblyLine_eq_dec : EqDecision DisassemblyLine.
Proof. solve_decision. Defined.

Record DisassemblyOutput := mkDisassembly {
  symbol : Data.Symbol;
  sourceFileName : string;
  disassemblyLines : list DisassemblyLine
}.

(** ** Qt types *)

(** An index of a flat table: either invalid, with row and column -1, or a
    cell.  The parent of every index of a table model is invalid. *)
Inductive QModelIndex := InvalidIndex | Index (r c : Z).

Definition isValid (i : QModelIndex) : bool :=
  match i with InvalidIndex => false | Index _ _ => true end.
Definition row (i : QModelIndex) : Z :=
  match i with InvalidIndex => -1 | Index r _ => r end.
Definition column (i : QModelIndex) : Z :=
  match i with InvalidIndex => -1 | Index _ c => c end.
Definition parent (i : QModelIndex) : QModelIndex := InvalidIndex.

(** The item roles [data] distinguishes; every other Qt role is [OtherRole]. *)
Inductive Role :=
| DisplayRole | ToolTipRole | CostRole | TotalCostRole
| HighlightRole | RainbowLineNumberRole | OtherRole (n : Z).

Inductive QVariant :=
| Invalid
| VString (s : string)
| VInt (z : Z)
| VCost (n : N)
| VBool (b : bool).

(** [QString::split(QLatin1Char(sep))] with the default [KeepEmptyParts]:
    there is always at least one part. *)
Fixpoint split (sep : Ascii.ascii) (s : string) : list string :=
  match s with
  | EmptyString => [EmptyString]
  | String c rest =>
      if decide (c = sep) then EmptyString :: split sep rest
      else match split sep rest with
           | part :: parts => String c part :: parts
           | [] => [String c EmptyString]
           end
  end.

Definition LF : Ascii.ascii := Ascii.ascii_of_nat 10.

(** The file system as the model sees it: a path either cannot be opened for
    reading or yields the text of the file. *)
Abbreviation FileSystem := (string → option string).

(** ** The model *)

Record SourceCodeModel := mkModel {
  m_sysroot : string;
  m_sourceCode : list string;
  m_validLineNumbers : gset Z;
  m_costs : Data.Costs;
  m_callerCalleeResults : Data.CallerCalleeResults;
  m_numTypes : Z;
  m_lineOffset : Z;
  m_highlightLine : Z
}.

(** [Q_ASSERT] checks its condition in a debug build and is compiled out in a
    release build. *)
Inductive Build := Debug | Release.

Definition Q_ASSERT (b : Build) (cond : bool) : bool :=
  match b with Debug => cond | Release => true end.

(** How a call of [setDisassembly] ends: it returns, a [Q_ASSERT] of a debug
    build fails, or [lines[i]] is evaluated with [i] outside the list (which
    asserts in a debug build of Qt and is undefined otherwise). *)
Inductive Outcome :=
| Returned (m : SourceCodeModel)
| AssertFailed
| OutOfBounds.

(** *** clear *)

Definition clear (m : SourceCodeModel) : SourceCodeModel :=
  mkModel (m_sysroot m) [] (m_validLineNumbers m) (m_costs m)
          (m_callerCalleeResults m) (m_numTypes m) (m_lineOffset m)
          (m_highlightLine m).

(** *** setDisassembly *)

(** The locals and members the scan over the instructions updates. *)
Record Scan := mkScan {
  maxLineNumber : Z;
  minLineNumber : Z;
  scanCosts : Data.Costs;
  scanValid : gset Z
}.

(** One iteration of the loop over [disassemblyLines]. *)
Definition scanLine (entry : Data.CallerCalleeEntry) (st : Scan) (line : DisassemblyLine) : Scan :=
  if decide (sourceCodeLine line = 0) then st
  else
    mkScan
      (if decide (sourceCodeLine line > maxLineNumber st)
       then sourceCodeLine line else maxLineNumber st)
      (if decide (sourceCodeLine line < minLineNumber st)
       then sourceCodeLine line else minLineNumber st)
      (match Data.offsetMap entry !! addr line with
       | Some locationCost =>
           Data.add (sourceCodeLine line) (Data.selfCost locationCost) (scanCosts st)
       | None => scanCosts st
       end)
      ({[sourceCodeLine line]} ∪ scanValid st).

Definition scanStart (results : Data.CallerCalleeResults) : Scan :=
  mkScan 0 INT_MAX
         (Data.initializeCostsFrom (Data.selfCosts results) Data.emptyCosts)
         ∅.

Definition scan (results : Data.CallerCalleeResults) (d : DisassemblyOutput) : Scan :=
  foldl (scanLine (Data.entry results (symbol d))) (scanStart results)
        (disassemblyLines d).

(** [lines[i]]: defined for [0 <= i < lines.size()] only. *)
Definition lineAt (lines : list string) (i : Z) : option string :=
  if decide (i < 0) then None else lines !! Z.to_nat i.

(** [for (int i = ...; i < maxLineNumber; i++) m_sourceCode.push_back(lines[i])],
    with [count] the number of iterations left. *)
Fixpoint pushLines (lines : list string) (i : Z) (count : nat)
    (sourceCode : list string) : option (list string) :=
  match count with
  | O => Some sourceCode
  | S count' =>
      match lineAt lines i with
      | Some line => pushLines lines (i + 1) count' (sourceCode ++ [line])
      | None => None
      end
  end.

Definition setDisassembly (build : Build) (fs : FileSystem)
    (disassemblyOutput : DisassemblyOutput) (m : SourceCodeModel) : Outcome :=
  if decide (sourceFileName disassemblyOutput = "") then Returned m
  else
    match fs (m_sysroot m +:+ separator +:+ sourceFileName disassemblyOutput) with
    | None => Returned m
    | Some content =>
        let st := scan (m_callerCalleeResults m) disassemblyOutput in
        if negb (Q_ASSERT build (bool_decide (minLineNumber st > 0))) then AssertFailed
        else if negb (Q_ASSERT build (bool_decide (minLineNumber st < maxLineNumber st)))
        then AssertFailed
        else
          let lineOffset := minLineNumber st - 1 in
          let lines := split LF content in
          match pushLines lines (minLineNumber st - 1)
                  (Z.to_nat (maxLineNumber st - (minLineNumber st - 1)))
                  (m_sourceCode m ++ [Data.prettySymbol (symbol disassemblyOutput)]) with
          | None => OutOfBounds
          | Some sourceCode =>
              Returned (mkModel (m_sysroot m) sourceCode (scanValid st) (scanCosts st)
                                (m_callerCalleeResults m) (m_numTypes m) lineOffset
                                (m_highlightLine m))
          end
    end.

(** *** Queries

    The sums [row + m_lineOffset] of [data] and [lineForIndex] are exact.
    They are the values of the source's [int] additions whenever they lie in
    [int_range]; beyond it the C++ addition overflows. *)

Definition columnCount (m : SourceCodeModel) (parent : QModelIndex) : Z :=
  if isValid parent then 0 else COLUMN_COUNT + m_numTypes m.

Definition rowCount (m : SourceCodeModel) (parent : QModelIndex) : Z :=
  if isValid parent then 0 else Z.of_nat (length (m_sourceCode m)).

(** [QAbstractItemModel::hasIndex]. *)
Definition hasIndex (m : SourceCodeModel) (r c : Z) (parent : QModelIndex) : bool :=
  if bool_decide (r < 0) || bool_decide (c < 0) then false
  else bool_decide (r < rowCount m parent) && bool_decide (c < columnCount m parent).

Section CellValues.

(** [Util::formatCostRelative], the formatter of a cost cell. *)
Variable formatCostRelative : N → N → bool → string.

Definition data (m : SourceCodeModel) (index : QModelIndex) (role : Role) : QVariant :=
  if negb (hasIndex m (row index) (column index) (parent index)) then Invalid
  else if bool_decide (row index > Z.of_nat (length (m_sourceCode m)))
          || bool_decide (row index < 0) then Invalid
  else
    match m_sourceCode m !! Z.to_nat (row index) with
    | None => Invalid (* not reached: [hasIndex] bounds the row *)
    | Some line =>
        match role with
        | DisplayRole | ToolTipRole | CostRole | TotalCostRole =>
            if decide (column index = SourceCodeColumn) then VString line
            else if decide (column index = SourceCodeLineNumber)
            then VInt (row index + m_lineOffset m)
            else if decide (column index - COLUMN_COUNT < m_numTypes m) then
              let cost := Data.cost (m_costs m) (Z.to_nat (column index - COLUMN_COUNT))
                                    (row index + m_lineOffset m) in
              let totalCost := Data.totalCost (m_costs m)
                                    (Z.to_nat (column index - COLUMN_COUNT)) in
              match role with
              | CostRole => VCost cost
              | TotalCostRole => VCost totalCost
              | _ => VString (formatCostRelative cost totalCost true)
              end
            else Invalid
        | HighlightRole =>
            VBool (bool_decide (row index + m_lineOffset m = m_highlightLine m))
        | RainbowLineNumberRole =>
            let line := row index + m_lineOffset m in
            if decide (line ∈ m_validLineNumbers m) then VInt line else VInt (-1)
        | OtherRole _ => Invalid
        end
    end.

End CellValues.

(** *** updateHighlighting, lineForIndex, setSysroot, setCallerCalleeResults *)

Definition updateHighlighting (line : Z) (m : SourceCodeModel) : SourceCodeModel :=
  mkModel (m_sysroot m) (m_sourceCode m) (m_validLineNumbers m) (m_costs m)
          (m_callerCalleeResults m) (m_numTypes m) (m_lineOffset m) line.

Definition lineForIndex (m : SourceCodeModel) (index : QModelIndex) : Z :=
  row index + m_lineOffset m.

Definition setSysroot (sysroot : string) (m : SourceCodeModel) : SourceCodeModel :=
  mkModel sysroot (m_sourceCode m) (m_validLineNumbers m) (m_costs m)
          (m_callerCalleeResults m) (m_numTypes m) (m_lineOffset m)
          (m_highlightLine m).

Definition setCallerCalleeResults (results : Data.CallerCalleeResults)
    (m : SourceCodeModel) : SourceCodeModel :=
  mkModel (m_sysroot m) (m_sourceCode m) (m_validLineNumbers m) (m_costs m)
          results (Z.of_nat (Data.numTypes (Data.selfCosts results)))
          (m_lineOffset m) (m_highlightLine m).

(** *** headerData *)

Inductive Orientation := Horizontal | Vertical.

#[global] Instance Orientation_eq_dec : EqDecision Orientation.
Proof. solve_decision. Defined.

#[global] Instance Role_eq_dec : EqDecision Role.
Proof. solve_decision. Defined.

Section Headers.

(** [tr], the translation of a user-visible string. *)
Variable tr : string → string.

Definition headerData (m : SourceCodeModel) (section : Z) (orientation : Orientation)
    (role : Role) : QVariant :=
  if bool_decide (section < 0) || bool_decide (section >= COLUMN_COUNT + m_numTypes m)
  then Invalid
  else if bool_decide (role ≠ DisplayRole) || bool_decide (orientation ≠ Horizontal)
  then Invalid
  else if decide (section = SourceCodeColumn) then VString (tr "Source Code")
  else if decide (section = SourceCodeLineNumber) then VString (tr "Line")
  else if decide (section - COLUMN_COUNT <= m_numTypes m)
  then VString (Data.typeName (m_costs m) (Z.to_nat (section - COLUMN_COUNT)))
  else Invalid.

End Headers.

(** ** Notions used to state the properties *)

(** The path [setDisassembly] opens. *)
Definition sourcePath (m : SourceCodeModel) (d : DisassemblyOutput) : string :=
  m_sysroot m +:+ separator +:+ sourceFileName d.

(** The load gets past both early returns: the file name is not empty and the
    file opens, with [content] as its text. *)
Definition opens (fs : FileSystem) (d : DisassemblyOutput) (m : SourceCodeModel)
    (content : string) : Prop :=
  sourceFileName d ≠ "" ∧ fs (sourcePath m d) = Some content.

(** Every source line number of the disassembly is a value of type [int]. *)
Definition int_lines (d : DisassemblyOutput) : Prop :=
  Forall (λ l, int_range (sourceCodeLine l)) (disassemblyLines d).

(** The non-zero source lines the disassembly refers to, in order. *)
Definition referencedLines (d : DisassemblyOutput) : list Z :=
  filter (λ z, z ≠ 0) (sourceCodeLine <$> disassemblyLines d).

Definition minimumOf (ls : list Z) (mn : Z) : Prop := mn ∈ ls ∧ Forall (λ x, mn ≤ x) ls.
Definition maximumOf (ls : list Z) (mx : Z) : Prop := mx ∈ ls ∧ Forall (λ x, x ≤ mx) ls.

(** The disassembly without its entries of source line 0. *)
Definition withoutLineZero (d : DisassemblyOutput) : DisassemblyOutput :=
  mkDisassembly (symbol d) (sourceFileName d)
                (filter (λ l, sourceCodeLine l ≠ 0) (disassemblyLines d)).

(** The self cost recorded for the address of an entry, 0 when there is none. *)
Definition entrySelfCost (entry : Data.CallerCalleeEntry) (type : nat)
    (l : DisassemblyLine) : N :=
  match Data.offsetMap entry !! addr l with
  | Some locationCost => default 0%N (Data.selfCost locationCost !! type)
  | None => 0%N
  end.

Definition selfCostAt (results : Data.CallerCalleeResults) (d : DisassemblyOutput)
    (type : nat) (l : DisassemblyLine) : N :=
  entrySelfCost (Data.entry results (symbol d)) type l.

Definition sumN (l : list N) : N := foldr N.add 0%N l.

(** The sum, over the entries of the disassembly that map to line [L], of the
    self costs recorded for their addresses. *)
Definition lineSelfCost (results : Data.CallerCalleeResults) (d : DisassemblyOutput)
    (type : nat) (L : Z) : N :=
  sumN (selfCostAt results d type <$>
          filter (λ l, sourceCodeLine l = L) (disassemblyLines d)).

(** The model a load publishes from the result [st] of its scan and the row
    list [rows] it has built. *)
Definition loadedModel (m : SourceCodeModel) (st : Scan) (rows : list string) : SourceCodeModel :=
  mkModel (m_sysroot m) rows (scanValid st) (scanCosts st)
          (m_callerCalleeResults m) (m_numTypes m) (minLineNumber st - 1)
          (m_highlightLine m).

(** [QStringList::join], the inverse of [split]: the parts with the separator
    between them. *)
Fixpoint join (sep : Ascii.ascii) (parts : list string) : string :=
  match parts with
  | [] => EmptyString
  | [part] => part
  | part :: rest => part +:+ String sep (join sep rest)
  end.

(** The number of occurrences of a character in a string. *)
Fixpoint occurrences (c : Ascii.ascii) (s : string) : nat :=
  match s with
  | EmptyString => O
  | String c' rest => (if decide (c' = c) then 1 else 0) + occurrences c rest
  end.

(** The four roles [data] answers from the row's text, line number and costs. *)
Definition valueRole (role : Role) : Prop :=
  role = DisplayRole ∨ role = ToolTipRole ∨ role = CostRole ∨ role = TotalCostRole.

(** Two models agree on what a load reads: the source root, the rows already
    displayed, the cost context and the members the load leaves alone. *)
Definition sameLoadInput (m1 m2 : SourceCodeModel) : Prop :=
  m_sysroot m1 = m_sysroot m2 ∧ m_sourceCode m1 = m_sourceCode m2 ∧
  m_callerCalleeResults m1 = m_callerCalleeResults m2 ∧
  m_numTypes m1 = m_numTypes m2 ∧ m_highlightLine m1 = m_highlightLine m2.

(** The asserted conditions hold, or the build compiles them out. *)
Definition assertionsPass (build : Build) (st : Scan) : Prop :=
  build = Release ∨ (minLineNumber st > 0 ∧ minLineNumber st < maxLineNumber st).

(** ** A worked example: the scenario of the specification

    Entries (0x10, line 5, cost 2), (0x14, line 5, cost 3), (0x18, line 7, no
    cost recorded) and (0x1c, line 0, cost 99), one cost type, and a source
    file of eight lines. *)

Definition ex_symbol : Data.Symbol := Data.mkSymbol "foo" "foo()".

Definition ex_entry : Data.CallerCalleeEntry :=
  Data.mkEntry (<[16%N := Data.mkLocationCost [2%N] [2%N]]>
               (<[20%N := Data.mkLocationCost [3%N] [3%N]]>
               (<[28%N := Data.mkLocationCost [99%N] [99%N]]> ∅))).

Definition ex_results : Data.CallerCalleeResults :=
  Data.mkResults {[ ex_symbol := ex_entry ]} (Data.mkCosts ["cycles"] [104%N] [∅]).

Definition ex_disassembly : DisassemblyOutput :=
  mkDisassembly ex_symbol "main.cpp"
                [mkLine 16 5; mkLine 20 5; mkLine 24 7; mkLine 28 0].

Definition ex_text : string :=
  Eval cbv in
    let nl := String LF EmptyString in
    "l1" +:+ nl +:+ "l2" +:+ nl +:+ "l3" +:+ nl +:+ "l4" +:+ nl +:+
    "l5" +:+ nl +:+ "l6" +:+ nl +:+ "l7" +:+ nl +:+ "l8" +:+ nl.

Definition ex_fs : FileSystem :=
  λ path, if decide (path = "/main.cpp") then Some ex_text else None.

(** A model right after construction and [setCallerCalleeResults]. *)
Definition ex_fresh : SourceCodeModel :=
  setCallerCalleeResults ex_results
    (mkModel "" [] ∅ Data.emptyCosts (Data.mkResults ∅ Data.emptyCosts) 0 0 0).

(** The model after loading the scenario. *)
Definition ex_loaded : SourceCodeModel :=
  match setDisassembly Debug ex_fs ex_disassembly ex_fresh with
  | Returned m => m
  | _ => ex_fresh
  end.

(** Disassemblies that break the asserted invariant: no resolved line at all,
    and a single resolved line. *)
Definition ex_unresolved : DisassemblyOutput :=
  mkDisassembly ex_symbol "main.cpp" [mkLine 28 0].

Definition ex_single : DisassemblyOutput :=
  mkDisassembly ex_symbol "main.cpp" [mkLine 16 5].

(** A disassembly that refers to line 12 of the eight-line file. *)
Definition ex_beyond : DisassemblyOutput :=
  mkDisassembly ex_symbol "main.cpp" [mkLine 16 5; mkLine 20 12].

(** The model after loading the scenario a second time, without a [clear]
    in between. *)
Definition ex_reloaded : SourceCodeModel :=
  match setDisassembly Debug ex_fs ex_disassembly ex_loaded with
  | Returned m => m
  | _ => ex_loaded
  end.

(** The loaded model after a release build loads [ex_unresolved]. *)
Definition ex_unresolved_loaded : SourceCodeModel :=
  match setDisassembly Release ex_fs ex_unresolved ex_loaded with
  | Returned m => m
  | _ => ex_loaded
  end.

(** Another cost context, with two cost types of other names. *)
Definition ex_renamed : Data.CallerCalleeResults :=
  Data.mkResults ∅ (Data.mkCosts ["instructions"; "branches"] [7%N; 9%N] [∅; ∅]).

(** A disassembly with a negative source line. *)
Definition ex_negative : DisassemblyOutput :=
  mkDisassembly ex_symbol "main.cpp" [mkLine 16 5; mkLine 20 (-1)].

(** A disassembly whose source file does not exist. *)
Definition ex_missing : DisassemblyOutput :=
  mkDisassembly ex_symbol "missing.cpp" [mkLine 16 5; mkLine 20 6].

Definition ex_format : N → N → bool → string := λ _ _ _, "".

(** ** Deciding the side conditions on concrete inputs *)

#[local] Instance opens_dec fs d m content : Decision (opens fs d m content).
Proof. unfold opens. apply _. Defined.

#[local] Instance int_range_dec z : Decision (int_range z).
Proof. unfold int_range. apply _. Defined.

#[local] Instance int_lines_dec d : Decision (int_lines d).
Proof. unfold int_lines. apply _. Defined.

#[local] Instance minimumOf_dec ls mn : Decision (minimumOf ls mn).
Proof. unfold minimumOf. apply _. Defined.

#[local] Instance maximumOf_dec ls mx : Decision (maximumOf ls mx).
Proof. unfold maximumOf. apply _. Defined.

Ltac by_evaluation := apply (bool_decide_unpack _); vm_compute; exact I.

(** * Properties *)

(** ** The scenario, evaluated *)

Example ex_loaded_rows : m_sourceCode ex_loaded = ["foo()"; "l5"; "l6"; "l7"].
Proof. reflexivity. Qed.

Example ex_loaded_offset : m_lineOffset ex_loaded = 4.
Proof. reflexivity. Qed.

Example ex_loaded_costs :
  Data.cost (m_costs ex_loaded) 0 5 = 5%N ∧ Data.cost (m_costs ex_loaded) 0 7 = 0%N.
Proof. split; reflexivity. Qed.

Example ex_loaded_valid : elements (m_validLineNumbers ex_loaded) ≡ₚ [5; 7].
Proof. vm_compute. apply perm_swap. Qed.

Example ex_loaded_cells :
  data ex_format ex_loaded (Index 1 2) CostRole = VCost 5 ∧
  data ex_format ex_loaded (Index 3 2) CostRole = VCost 0 ∧
  data ex_format ex_loaded (Index 3 0) RainbowLineNumberRole = VInt 7 ∧
  data ex_format ex_loaded (Index 2 0) RainbowLineNumberRole = VInt (-1) ∧
  data ex_format ex_loaded (Index 0 0) DisplayRole = VString "foo()".
Proof. repeat split; reflexivity. Qed.

(** A disassembly whose entries are all on line 5: the debug build stops at
    the assertion, the release build shows the label and that line. *)
Example ex_single_debug : setDisassembly Debug ex_fs ex_single ex_fresh = AssertFailed.
Proof. reflexivity. Qed.

Example ex_single_release :
  match setDisassembly Release ex_fs ex_single ex_fresh with
  | Returned m => m_sourceCode m = ["foo()"; "l5"] ∧ m_lineOffset m = 4
  | _ => False
  end.
Proof. vm_compute. split; reflexivity. Qed.

(** The part after the last line feed of the file is a line of its own. *)
Example ex_split : split LF ex_text = ["l1"; "l2"; "l3"; "l4"; "l5"; "l6"; "l7"; "l8"; ""].
Proof. reflexivity. Qed.

(** ** Helper lemmas *)

(** *** The cost table *)

Lemma add_length id delta c :
  length (Data.costs (Data.add id delta c)) = length (Data.costs c).
Proof. unfold Data.add; simpl. by rewrite length_imap. Qed.

Lemma cost_add id delta c type L :
  Data.cost (Data.add id delta c) type L =
    if decide ((type < length (Data.costs c))%nat ∧ L = id)
    then (Data.cost c type L + default 0 (delta !! type))%N
    else Data.cost c type L.
Proof.
  unfold Data.cost, Data.add; simpl. rewrite list_lookup_imap.
  destruct (Data.costs c !! type) as [perId|] eqn:E; simpl.
  - apply lookup_lt_Some in E.
    destruct (decide (L = id)) as [->|Hne].
    + rewrite lookup_insert_eq. rewrite decide_True by done. done.
    + rewrite lookup_insert_ne by done. rewrite decide_False by tauto. done.
  - apply lookup_ge_None in E. rewrite decide_False by lia. done.
Qed.

Lemma cost_initialize rhs c type L :
  Data.cost (Data.initializeCostsFrom rhs c) type L = 0%N.
Proof.
  unfold Data.cost, Data.initializeCostsFrom; simpl.
  destruct (replicate (Data.numTypes rhs) ∅ !! type) as [perId|] eqn:E; [|done].
  apply lookup_replicate in E as [-> _]. done.
Qed.

(** *** Running minimum and maximum *)

Lemma foldl_min_le a xs : foldl Z.min a xs ≤ a ∧ Forall (λ x, foldl Z.min a xs ≤ x) xs.
Proof.
  revert a. induction xs as [|x xs IH]; intros a; simpl.
  - split; [lia | constructor].
  - destruct (IH (Z.min a x)) as [H1 H2]. split; [lia|].
    constructor; [lia | done].
Qed.

Lemma foldl_min_in a xs : foldl Z.min a xs = a ∨ foldl Z.min a xs ∈ xs.
Proof.
  revert a. induction xs as [|x xs IH]; intros a; simpl; [by left|].
  destruct (IH (Z.min a x)) as [H|H].
  - rewrite H. destruct (Z.min_spec a x) as [[_ ->]|[_ ->]]; [by left|].
    right. constructor.
  - right. by constructor.
Qed.

Lemma foldl_max_ge a xs : a ≤ foldl Z.max a xs ∧ Forall (λ x, x ≤ foldl Z.max a xs) xs.
Proof.
  revert a. induction xs as [|x xs IH]; intros a; simpl.
  - split; [lia | constructor].
  - destruct (IH (Z.max a x)) as [H1 H2]. split; [lia|].
    constructor; [lia | done].
Qed.

Lemma foldl_max_in a xs : foldl Z.max a xs = a ∨ foldl Z.max a xs ∈ xs.
Proof.
  revert a. induction xs as [|x xs IH]; intros a; simpl; [by left|].
  destruct (IH (Z.max a x)) as [H|H].
  - rewrite H. destruct (Z.max_spec a x) as [[_ ->]|[_ ->]]; [|by left].
    right. constructor.
  - right. by constructor.
Qed.

Lemma foldl_min_minimum a xs mn :
  minimumOf xs mn → foldl Z.min a xs = Z.min a mn.
Proof.
  intros [Hin Hle].
  destruct (foldl_min_le a xs) as [Ha Hall].
  rewrite Forall_forall in Hall, Hle.
  specialize (Hall _ Hin).
  destruct (foldl_min_in a xs) as [Heq|Hmem].
  - lia.
  - specialize (Hle _ Hmem). lia.
Qed.

Lemma foldl_max_maximum a xs mx :
  maximumOf xs mx → foldl Z.max a xs = Z.max a mx.
Proof.
  intros [Hin Hle].
  destruct (foldl_max_ge a xs) as [Ha Hall].
  rewrite Forall_forall in Hall, Hle.
  specialize (Hall _ Hin).
  destruct (foldl_max_in a xs) as [Heq|Hmem].
  - lia.
  - specialize (Hle _ Hmem). lia.
Qed.

Lemma minimum_le_maximum xs mn mx : minimumOf xs mn → maximumOf xs mx → mn ≤ mx.
Proof.
  intros [Hin _] [_ Hle]. rewrite Forall_forall in Hle. by apply Hle.
Qed.

(** *** The scan over the instructions *)

Section ScanLemmas.

Variable entry : Data.CallerCalleeEntry.

Lemma scan_fold_min st ls :
  minLineNumber (foldl (scanLine entry) st ls) =
    foldl Z.min (minLineNumber st) (filter (λ z, z ≠ 0) (sourceCodeLine <$> ls)).
Proof.
  revert st. induction ls as [|l ls IH]; intros st; simpl; [done|].
  rewrite IH, filter_cons. unfold scanLine.
  destruct (decide (sourceCodeLine l = 0)) as [Hz|Hz];
    destruct (decide (sourceCodeLine l ≠ 0)) as [Hz'|Hz']; try lia; simpl; [done|].
  f_equal. case_decide; lia.
Qed.

Lemma scan_fold_max st ls :
  maxLineNumber (foldl (scanLine entry) st ls) =
    foldl Z.max (maxLineNumber st) (filter (λ z, z ≠ 0) (sourceCodeLine <$> ls)).
Proof.
  revert st. induction ls as [|l ls IH]; intros st; simpl; [done|].
  rewrite IH, filter_cons. unfold scanLine.
  destruct (decide (sourceCodeLine l = 0)) as [Hz|Hz];
    destruct (decide (sourceCodeLine l ≠ 0)) as [Hz'|Hz']; try lia; simpl; [done|].
  f_equal. case_decide; lia.
Qed.

Lemma scan_fold_valid st ls L :
  L ∈ scanValid (foldl (scanLine entry) st ls) ↔
    L ∈ scanValid st ∨ (L ≠ 0 ∧ ∃ l, l ∈ ls ∧ sourceCodeLine l = L).
Proof.
  revert st. induction ls as [|l ls IH]; intros st; simpl.
  - split; [by left|]. intros [H|[_ (l & Hl & _)]]; [done|]. by apply elem_of_nil in Hl.
  - rewrite IH. unfold scanLine.
    destruct (decide (sourceCodeLine l = 0)) as [Hz|Hz]; simpl.
    + split.
      * intros [H|[HL (l' & Hl' & E)]]; [by left|].
        right. split; [done|]. exists l'. split; [by constructor | done].
      * intros [H|[HL (l' & Hl' & E)]]; [by left|].
        apply elem_of_cons in Hl' as [->|Hl']; [congruence|].
        right. split; [done|]. by exists l'.
    + rewrite elem_of_union, elem_of_singleton. split.
      * intros [[->|H]|[HL (l' & Hl' & E)]].
        -- right. split; [done|]. exists l. split; [constructor | done].
        -- by left.
        -- right. split; [done|]. exists l'. split; [by constructor | done].
      * intros [H|[HL (l' & Hl' & E)]]; [by left; right|].
        apply elem_of_cons in Hl' as [->|Hl']; [by left; left|].
        right. split; [done|]. by exists l'.
Qed.

Lemma scan_fold_costs_length st ls :
  length (Data.costs (scanCosts (foldl (scanLine entry) st ls))) =
    length (Data.costs (scanCosts st)).
Proof.
  revert st. induction ls as [|l ls IH]; intros st; simpl; [done|].
  rewrite IH. unfold scanLine. case_decide; simpl; [done|].
  destruct (Data.offsetMap entry !! addr l); [apply add_length | done].
Qed.

Lemma scan_fold_costs st ls type L :
  (type < length (Data.costs (scanCosts st)))%nat → L ≠ 0 →
  Data.cost (scanCosts (foldl (scanLine entry) st ls)) type L =
    (Data.cost (scanCosts st) type L +
     sumN (entrySelfCost entry type <$> filter (λ l, sourceCodeLine l = L) ls))%N.
Proof.
  intros Htype HL. revert st Htype.
  induction ls as [|l ls IH]; intros st Htype; simpl; [lia|].
  assert (Hlen : (type < length (Data.costs (scanCosts (scanLine entry st l))))%nat).
  { unfold scanLine. case_decide; simpl; [done|].
    destruct (Data.offsetMap entry !! addr l); [by rewrite add_length | done]. }
  assert (Hstep : Data.cost (scanCosts (scanLine entry st l)) type L =
                  (Data.cost (scanCosts st) type L +
                   if decide (sourceCodeLine l = L) then entrySelfCost entry type l
                   else 0)%N).
  { unfold scanLine, entrySelfCost.
    destruct (decide (sourceCodeLine l = 0)) as [Hz|Hz]; simpl.
    - rewrite decide_False by congruence. lia.
    - destruct (Data.offsetMap entry !! addr l) as [lc|]; simpl.
      + rewrite cost_add. repeat case_decide; lia.
      + case_decide; lia. }
  rewrite (IH _ Hlen), Hstep, filter_cons.
  case_decide; simpl; rewrite ?N.add_0_r, ?N.add_assoc; reflexivity.
Qed.

Lemma scan_fold_costs_zero st ls type :
  Data.cost (scanCosts (foldl (scanLine entry) st ls)) type 0 =
    Data.cost (scanCosts st) type 0.
Proof.
  revert st. induction ls as [|l ls IH]; intros st; simpl; [done|].
  rewrite IH. unfold scanLine.
  destruct (decide (sourceCodeLine l = 0)) as [Hz|Hz]; simpl; [done|].
  destruct (Data.offsetMap entry !! addr l) as [lc|]; [|done].
  rewrite cost_add, decide_False by (intros [_ ?]; congruence). done.
Qed.

Lemma scan_fold_filter st ls :
  foldl (scanLine entry) st (filter (λ l, sourceCodeLine l ≠ 0) ls) =
    foldl (scanLine entry) st ls.
Proof.
  revert st. induction ls as [|l ls IH]; intros st; simpl; [done|].
  rewrite filter_cons.
  destruct (decide (sourceCodeLine l ≠ 0)) as [Hz|Hz]; simpl.
  - apply IH.
  - rewrite IH. f_equal. unfold scanLine. by rewrite decide_True by lia.
Qed.

End ScanLemmas.

(** *** Splitting the file and copying the window *)

Lemma split_length sep s : (0 < length (split sep s))%nat.
Proof.
  induction s as [|c rest IH]; simpl; [lia|].
  case_decide; simpl; [lia|].
  destruct (split sep rest); simpl in *; lia.
Qed.

(** The copying loop succeeds exactly when it does not run or every index
    [i .. i + count - 1] is one of [lines]; it then appends that slice. *)
Lemma pushLines_spec lines i count sourceCode :
  pushLines lines i count sourceCode =
    if decide (count = 0%nat ∨ (0 ≤ i ∧ i + Z.of_nat count ≤ Z.of_nat (length lines)))
    then Some (sourceCode ++ take count (drop (Z.to_nat i) lines))
    else None.
Proof.
  revert i sourceCode. induction count as [|count IH]; intros i sourceCode;
    cbn [pushLines].
  - rewrite decide_True by (by left). by rewrite take_0, app_nil_r.
  - unfold lineAt. destruct (decide (i < 0)) as [Hneg|Hpos].
    + rewrite decide_False by lia. done.
    + destruct (lines !! Z.to_nat i) as [line|] eqn:E.
      * pose proof (lookup_lt_Some _ _ _ E) as Hlt.
        rewrite IH. replace (Z.to_nat (i + 1)) with (S (Z.to_nat i)) by lia.
        rewrite (drop_S _ _ _ E). simpl. rewrite <- app_assoc. simpl.
        destruct count as [|count].
        -- rewrite !decide_True by lia. done.
        -- repeat case_decide; try lia; done.
      * apply lookup_ge_None in E. rewrite decide_False by lia. done.
Qed.

Lemma pushLines_Some lines i count sourceCode rows :
  pushLines lines i count sourceCode = Some rows →
  rows = sourceCode ++ take count (drop (Z.to_nat i) lines) ∧
  (count = 0%nat ∨ (0 ≤ i ∧ i + Z.of_nat count ≤ Z.of_nat (length lines))).
Proof.
  rewrite pushLines_spec. case_decide; [|done]. intros [= <-]. done.
Qed.

(** *** The shape of a load that gets past the early returns *)

Lemma setDisassembly_opened build fs d m content :
  opens fs d m content →
  setDisassembly build fs d m =
    let st := scan (m_callerCalleeResults m) d in
    if negb (Q_ASSERT build (bool_decide (minLineNumber st > 0))) then AssertFailed
    else if negb (Q_ASSERT build (bool_decide (minLineNumber st < maxLineNumber st)))
    then AssertFailed
    else match pushLines (split LF content) (minLineNumber st - 1)
                 (Z.to_nat (maxLineNumber st - (minLineNumber st - 1)))
                 (m_sourceCode m ++ [Data.prettySymbol (symbol d)]) with
         | None => OutOfBounds
         | Some rows => Returned (loadedModel m st rows)
         end.
Proof.
  intros [Hname Hfile]. unfold setDisassembly, sourcePath in *.
  rewrite decide_False by done. rewrite Hfile. reflexivity.
Qed.

Lemma assertions_pass build st :
  assertionsPass build st →
  Q_ASSERT build (bool_decide (minLineNumber st > 0)) = true ∧
  Q_ASSERT build (bool_decide (minLineNumber st < maxLineNumber st)) = true.
Proof.
  intros [->|[H1 H2]]; [done|].
  destruct build; simpl; [|done]. by rewrite !bool_decide_eq_true_2.
Qed.

Lemma setDisassembly_returned build fs d m content m' :
  opens fs d m content →
  setDisassembly build fs d m = Returned m' →
  let st := scan (m_callerCalleeResults m) d in
  assertionsPass build st ∧
  ∃ rows,
    pushLines (split LF content) (minLineNumber st - 1)
              (Z.to_nat (maxLineNumber st - (minLineNumber st - 1)))
              (m_sourceCode m ++ [Data.prettySymbol (symbol d)]) = Some rows ∧
    m' = loadedModel m st rows.
Proof.
  intros Hopen. rewrite (setDisassembly_opened _ _ _ _ _ Hopen). simpl.
  destruct build; simpl.
  - destruct (bool_decide (minLineNumber _ > 0)) eqn:E1; simpl; [|done].
    destruct (bool_decide (minLineNumber _ < maxLineNumber _)) eqn:E2; simpl; [|done].
    apply bool_decide_eq_true in E1, E2.
    destruct (pushLines _ _ _ _) as [rows|]; [|done].
    intros [= <-]. split; [by right|]. by exists rows.
  - destruct (pushLines _ _ _ _) as [rows|]; [|done].
    intros [= <-]. split; [by left|]. by exists rows.
Qed.

(** Minimum and maximum tracked by the scan, against the referenced lines. *)
Lemma referenced_int d x : int_lines d → x ∈ referencedLines d → int_range x ∧ x ≠ 0.
Proof.
  intros Hint Hx. unfold referencedLines in Hx.
  apply list_elem_of_filter in Hx as [Hnz Hx].
  apply list_elem_of_fmap in Hx as (l & -> & Hl).
  unfold int_lines in Hint. rewrite Forall_forall in Hint. split; [by apply Hint | done].
Qed.

Lemma scan_min results d mn :
  int_lines d → minimumOf (referencedLines d) mn →
  minLineNumber (scan results d) = mn.
Proof.
  intros Hint Hmin. unfold scan. rewrite scan_fold_min. simpl.
  fold (referencedLines d). rewrite (foldl_min_minimum _ _ _ Hmin).
  destruct Hmin as [Hin _]. destruct (referenced_int _ _ Hint Hin) as [[_ Hle] _]. lia.
Qed.

Lemma scan_max results d mx :
  maximumOf (referencedLines d) mx →
  maxLineNumber (scan results d) = Z.max 0 mx.
Proof.
  intros Hmax. unfold scan. rewrite scan_fold_max. simpl.
  fold (referencedLines d). by apply foldl_max_maximum.
Qed.

Lemma scan_unreferenced results d :
  referencedLines d = [] →
  scan results d = scanStart results.
Proof.
  unfold referencedLines, scan. generalize (scanStart results) as st.
  induction (disassemblyLines d) as [|l ls IH]; intros st; simpl; [done|].
  rewrite filter_cons. unfold scanLine at 2.
  destruct (decide (sourceCodeLine l = 0)) as [Hz|Hz].
  - rewrite decide_False by lia. apply IH.
  - rewrite decide_True by done. done.
Qed.

(** ** C1: additive aggregation per source line *)

(** C1.  After a load that gets past the early returns and completes, the cost
    accumulated at a source line [L] for a cost type is the sum of the self
    costs recorded for the addresses of all the entries that map to [L], one
    summand per entry.  Entries of source line 0 are skipped entirely: nothing
    is accumulated at line 0, and removing them from the disassembly changes
    neither the scan (minimum, maximum, costs, valid lines) nor the outcome. *)
Theorem C1_costs_aggregate_per_line build fs d m content m' :
  opens fs d m content →
  setDisassembly build fs d m = Returned m' →
  (∀ L type, L ≠ 0 →
     (type < Data.numTypes (Data.selfCosts (m_callerCalleeResults m)))%nat →
     Data.cost (m_costs m') type L = lineSelfCost (m_callerCalleeResults m) d type L)
  ∧ (∀ type, Data.cost (m_costs m') type 0 = 0%N)
  ∧ scan (m_callerCalleeResults m) (withoutLineZero d) = scan (m_callerCalleeResults m) d
  ∧ setDisassembly build fs (withoutLineZero d) m = Returned m'.
Proof.
  intros Hopen Hload.
  assert (Hscan : scan (m_callerCalleeResults m) (withoutLineZero d) =
                  scan (m_callerCalleeResults m) d).
  { unfold scan, withoutLineZero. simpl. apply scan_fold_filter. }
  destruct (setDisassembly_returned _ _ _ _ _ _ Hopen Hload) as (_ & rows & _ & ->).
  simpl. repeat split.
  - intros L type HL Htype. unfold scan, lineSelfCost, selfCostAt.
    rewrite scan_fold_costs; [| |done].
    + simpl. by rewrite cost_initialize.
    + simpl. by rewrite length_replicate.
  - intros type. unfold scan. rewrite scan_fold_costs_zero. simpl.
    apply cost_initialize.
  - done.
  - rewrite <- Hload.
    assert (Hopen' : opens fs (withoutLineZero d) m content) by apply Hopen.
    rewrite (setDisassembly_opened _ _ _ _ _ Hopen), (setDisassembly_opened _ _ _ _ _ Hopen').
    simpl. rewrite Hscan. reflexivity.
Qed.

Lemma C1_costs_aggregate_per_line_witness :
  opens ex_fs ex_disassembly ex_fresh ex_text ∧
  setDisassembly Debug ex_fs ex_disassembly ex_fresh = Returned ex_loaded ∧
  Data.cost (m_costs ex_loaded) 0 5 = lineSelfCost ex_results ex_disassembly 0 5 ∧
  lineSelfCost ex_results ex_disassembly 0 5 = 5%N.
Proof.
  assert (Hopen : opens ex_fs ex_disassembly ex_fresh ex_text) by by_evaluation.
  assert (Hload : setDisassembly Debug ex_fs ex_disassembly ex_fresh = Returned ex_loaded)
    by (vm_compute; reflexivity).
  split; [exact Hopen|]. split; [exact Hload|]. split; [|vm_compute; reflexivity].
  apply (C1_costs_aggregate_per_line Debug ex_fs ex_disassembly ex_fresh ex_text
           ex_loaded Hopen Hload).
  - discriminate.
  - vm_compute. lia.
Defined.

(** ** C2: a load that cannot open its file changes nothing *)

(** C2.  [setDisassembly] with an empty source file name, or with a file that
    cannot be opened, returns with the model unchanged: row count, column
    count, every cell value, the valid-line set, the cost table and the line
    offset are what they were before the call. *)
Theorem C2_load_without_file_is_noop build fs d m :
  sourceFileName d = "" ∨ fs (sourcePath m d) = None →
  ∃ m', setDisassembly build fs d m = Returned m' ∧
        m' = m ∧
        (∀ parent, rowCount m' parent = rowCount m parent) ∧
        (∀ parent, columnCount m' parent = columnCount m parent) ∧
        (∀ fmt index role, data fmt m' index role = data fmt m index role) ∧
        m_validLineNumbers m' = m_validLineNumbers m ∧
        m_costs m' = m_costs m ∧
        m_lineOffset m' = m_lineOffset m.
Proof.
  intros Hbad. exists m. split; [|done].
  unfold setDisassembly. destruct (decide (sourceFileName d = "")) as [|Hname]; [done|].
  destruct Hbad as [|Hfile]; [done|].
  unfold sourcePath in Hfile. by rewrite Hfile.
Qed.

Lemma C2_load_without_file_is_noop_witness :
  ex_fs (sourcePath ex_loaded ex_missing) = None ∧
  ∃ m', setDisassembly Release ex_fs ex_missing ex_loaded = Returned m' ∧
        m' = ex_loaded ∧
        (∀ parent, rowCount m' parent = rowCount ex_loaded parent) ∧
        (∀ parent, columnCount m' parent = columnCount ex_loaded parent) ∧
        (∀ fmt index role, data fmt m' index role = data fmt ex_loaded index role) ∧
        m_validLineNumbers m' = m_validLineNumbers ex_loaded ∧
        m_costs m' = m_costs ex_loaded ∧
        m_lineOffset m' = m_lineOffset ex_loaded.
Proof.
  split; [reflexivity|].
  apply (C2_load_without_file_is_noop Release ex_fs ex_missing ex_loaded).
  right. reflexivity.
Defined.

(** ** C3: the line offset *)

(** C3.  After a load that gets past the early returns and completes, the line
    offset is the minimum non-zero source line of the disassembly minus one;
    [lineForIndex] adds the offset to the row, so row 1 maps to that minimum
    and consecutive rows map to consecutive line numbers. *)
Theorem C3_line_offset build fs d m content m' mn :
  opens fs d m content →
  int_lines d →
  minimumOf (referencedLines d) mn →
  setDisassembly build fs d m = Returned m' →
  m_lineOffset m' = mn - 1
  ∧ (∀ r c, lineForIndex m' (Index r c) = r + m_lineOffset m')
  ∧ (∀ c, lineForIndex m' (Index 1 c) = mn)
  ∧ (∀ r c c', lineForIndex m' (Index (r + 1) c') = lineForIndex m' (Index r c) + 1).
Proof.
  intros Hopen Hint Hmin Hload.
  destruct (setDisassembly_returned _ _ _ _ _ _ Hopen Hload) as (_ & rows & _ & ->).
  unfold lineForIndex. simpl. rewrite (scan_min _ _ _ Hint Hmin).
  repeat split; intros; lia.
Qed.

Lemma C3_line_offset_witness :
  opens ex_fs ex_disassembly ex_fresh ex_text ∧
  int_lines ex_disassembly ∧
  minimumOf (referencedLines ex_disassembly) 5 ∧
  setDisassembly Debug ex_fs ex_disassembly ex_fresh = Returned ex_loaded ∧
  m_lineOffset ex_loaded = 5 - 1 ∧
  lineForIndex ex_loaded (Index 1 0) = 5.
Proof.
  assert (Hopen : opens ex_fs ex_disassembly ex_fresh ex_text) by by_evaluation.
  assert (Hint : int_lines ex_disassembly) by by_evaluation.
  assert (Hmin : minimumOf (referencedLines ex_disassembly) 5) by by_evaluation.
  assert (Hload : setDisassembly Debug ex_fs ex_disassembly ex_fresh = Returned ex_loaded)
    by (vm_compute; reflexivity).
  pose proof (C3_line_offset Debug ex_fs ex_disassembly ex_fresh ex_text ex_loaded 5
                Hopen Hint Hmin Hload) as (Hoff & _ & Hrow1 & _).
  split; [exact Hopen|]. split; [exact Hint|]. split; [exact Hmin|].
  split; [exact Hload|]. split; [exact Hoff | apply Hrow1].
Defined.

(** ** C4: the displayed rows *)

(** What a completed load leaves in the row list, and the bounds it has
    checked on the way. *)
Lemma loaded_rows build fs d m content m' mn mx :
  opens fs d m content →
  int_lines d →
  minimumOf (referencedLines d) mn →
  maximumOf (referencedLines d) mx →
  setDisassembly build fs d m = Returned m' →
  1 ≤ mn ∧ mn ≤ mx ∧ mx ≤ Z.of_nat (length (split LF content)) ∧
  m_lineOffset m' = mn - 1 ∧
  m_sourceCode m' =
    m_sourceCode m ++
    Data.prettySymbol (symbol d) ::
    take (Z.to_nat (mx - mn + 1)) (drop (Z.to_nat (mn - 1)) (split LF content)).
Proof.
  intros Hopen Hint Hmin Hmax Hload.
  destruct (setDisassembly_returned _ _ _ _ _ _ Hopen Hload) as (_ & rows & Hpush & ->).
  rewrite (scan_min _ _ _ Hint Hmin), (scan_max _ _ _ Hmax) in Hpush.
  simpl. rewrite (scan_min _ _ _ Hint Hmin).
  pose proof (minimum_le_maximum _ _ _ Hmin Hmax) as Hle.
  apply pushLines_Some in Hpush as [-> Hbounds].
  assert (1 ≤ mn ∧ mx ≤ Z.of_nat (length (split LF content))) as [H1 H2] by lia.
  repeat split; try lia.
  rewrite <- app_assoc. simpl. do 3 f_equal. lia.
Qed.

(** C4, as stated, fails: [setDisassembly] never empties the row list, so a
    second load of the scenario (lines 5 to 7) leaves 8 rows, not 7 - 5 + 2. *)
Lemma C4_rows_accumulate_counterexample :
  opens ex_fs ex_disassembly ex_loaded ex_text ∧
  minimumOf (referencedLines ex_disassembly) 5 ∧
  maximumOf (referencedLines ex_disassembly) 7 ∧
  setDisassembly Debug ex_fs ex_disassembly ex_loaded = Returned ex_reloaded ∧
  m_sourceCode ex_reloaded = ["foo()"; "l5"; "l6"; "l7"; "foo()"; "l5"; "l6"; "l7"] ∧
  rowCount ex_reloaded InvalidIndex ≠ 7 - 5 + 2.
Proof.
  split; [by_evaluation|]. split; [by_evaluation|]. split; [by_evaluation|].
  split; [vm_compute; reflexivity|]. split; [vm_compute; reflexivity|].
  vm_compute. discriminate.
Qed.

(** C4, amended.  After a completed load into a model that displays no row (a
    fresh model, or one just emptied by [clear]), with minimum referenced line
    min and maximum referenced line max, the row list holds exactly
    max - min + 2 rows: row 0 is the symbol's label and rows 1 to
    max - min + 1 hold, in order, the lines of the split file at 0-based
    indices min - 1 to max - 1, so that row r shows the file line of number
    r + offset. *)
Theorem C4_displayed_rows build fs d m content m' mn mx :
  opens fs d m content →
  int_lines d →
  minimumOf (referencedLines d) mn →
  maximumOf (referencedLines d) mx →
  m_sourceCode m = [] →
  setDisassembly build fs d m = Returned m' →
  rowCount m' InvalidIndex = mx - mn + 2
  ∧ m_sourceCode m' !! 0%nat = Some (Data.prettySymbol (symbol d))
  ∧ m_sourceCode m' =
      Data.prettySymbol (symbol d) ::
      take (Z.to_nat (mx - mn + 1)) (drop (Z.to_nat (mn - 1)) (split LF content))
  ∧ (∀ r, 1 ≤ r ≤ mx - mn + 1 →
       mn - 1 ≤ r + m_lineOffset m' - 1 ≤ mx - 1 ∧
       ∃ text, m_sourceCode m' !! Z.to_nat r = Some text ∧
               split LF content !! Z.to_nat (r + m_lineOffset m' - 1) = Some text).
Proof.
  intros Hopen Hint Hmin Hmax Hempty Hload.
  destruct (loaded_rows _ _ _ _ _ _ _ _ Hopen Hint Hmin Hmax Hload)
    as (H1 & Hle & Hlen & Hoff & Hrows).
  rewrite Hempty in Hrows. simpl in Hrows.
  assert (Hwindow : length (take (Z.to_nat (mx - mn + 1))
                              (drop (Z.to_nat (mn - 1)) (split LF content)))
                    = Z.to_nat (mx - mn + 1)).
  { rewrite length_take_le; [done|]. rewrite length_drop. lia. }
  split; [|split; [|split]].
  - unfold rowCount. simpl. rewrite Hrows. simpl. rewrite Hwindow. lia.
  - by rewrite Hrows.
  - exact Hrows.
  - intros r Hr. rewrite Hoff. split; [lia|].
    assert (Hsome : is_Some (split LF content !! Z.to_nat (r + (mn - 1) - 1))).
    { apply lookup_lt_is_Some. lia. }
    destruct Hsome as [text Htext]. exists text. split; [|exact Htext].
    rewrite Hrows. rewrite lookup_cons_ne_0 by lia.
    rewrite lookup_take_lt by lia. rewrite lookup_drop. rewrite <- Htext.
    f_equal. lia.
Qed.

Lemma C4_displayed_rows_witness :
  opens ex_fs ex_disassembly ex_fresh ex_text ∧
  int_lines ex_disassembly ∧
  minimumOf (referencedLines ex_disassembly) 5 ∧
  maximumOf (referencedLines ex_disassembly) 7 ∧
  m_sourceCode ex_fresh = [] ∧
  setDisassembly Debug ex_fs ex_disassembly ex_fresh = Returned ex_loaded ∧
  rowCount ex_loaded InvalidIndex = 7 - 5 + 2.
Proof.
  assert (Hopen : opens ex_fs ex_disassembly ex_fresh ex_text) by by_evaluation.
  assert (Hint : int_lines ex_disassembly) by by_evaluation.
  assert (Hmin : minimumOf (referencedLines ex_disassembly) 5) by by_evaluation.
  assert (Hmax : maximumOf (referencedLines ex_disassembly) 7) by by_evaluation.
  assert (Hempty : m_sourceCode ex_fresh = []) by reflexivity.
  assert (Hload : setDisassembly Debug ex_fs ex_disassembly ex_fresh = Returned ex_loaded)
    by (vm_compute; reflexivity).
  split; [exact Hopen|]. split; [exact Hint|]. split; [exact Hmin|].
  split; [exact Hmax|]. split; [exact Hempty|]. split; [exact Hload|].
  apply (C4_displayed_rows Debug ex_fs ex_disassembly ex_fresh ex_text ex_loaded 5 7
           Hopen Hint Hmin Hmax Hempty Hload).
Defined.

(** ** C5: a disassembly that breaks the asserted invariant *)

Lemma minimum_exists xs : xs ≠ [] → ∃ mn, minimumOf xs mn.
Proof.
  induction xs as [|x xs IH]; [done|]. intros _.
  destruct xs as [|y t].
  - exists x. split; [constructor|]. repeat constructor. lia.
  - destruct IH as [mn [Hin Hall]]; [done|].
    destruct (decide (x ≤ mn)) as [Hx|Hx].
    + exists x. split; [constructor|]. constructor; [lia|].
      eapply Forall_impl; [exact Hall|]. intros z Hz. simpl in Hz. lia.
    + exists mn. split; [by constructor|]. constructor; [lia | done].
Qed.

Lemma maximum_exists xs : xs ≠ [] → ∃ mx, maximumOf xs mx.
Proof.
  induction xs as [|x xs IH]; [done|]. intros _.
  destruct xs as [|y t].
  - exists x. split; [constructor|]. repeat constructor. lia.
  - destruct IH as [mx [Hin Hall]]; [done|].
    destruct (decide (mx ≤ x)) as [Hx|Hx].
    + exists x. split; [constructor|]. constructor; [lia|].
      eapply Forall_impl; [exact Hall|]. intros z Hz. simpl in Hz. lia.
    + exists mx. split; [by constructor|]. constructor; [lia | done].
Qed.

(** C5.  The invariant the code asserts is not guarded in a release build.
    Failing input: the loaded scenario (rows label, l5, l6, l7; offset 4;
    valid lines 5 and 7) and a disassembly of the same file whose only entry
    has source line 0.  No line qualifies, so [minLineNumber] stays INT_MAX
    and [maxLineNumber] stays 0.  A debug build stops at
    [Q_ASSERT(minLineNumber < maxLineNumber)].  A release build, where the
    assertion is compiled out, runs on: the valid-line set is emptied, a label
    row is appended and the offset becomes INT_MAX - 1, so the model is not
    the one the call was given. *)
Lemma C5_release_load_is_not_guarded :
  opens ex_fs ex_unresolved ex_loaded ex_text ∧
  referencedLines ex_unresolved = [] ∧
  minLineNumber (scan (m_callerCalleeResults ex_loaded) ex_unresolved) = INT_MAX ∧
  maxLineNumber (scan (m_callerCalleeResults ex_loaded) ex_unresolved) = 0 ∧
  setDisassembly Debug ex_fs ex_unresolved ex_loaded = AssertFailed ∧
  setDisassembly Release ex_fs ex_unresolved ex_loaded = Returned ex_unresolved_loaded ∧
  ex_unresolved_loaded ≠ ex_loaded ∧
  m_sourceCode ex_loaded = ["foo()"; "l5"; "l6"; "l7"] ∧
  m_sourceCode ex_unresolved_loaded = ["foo()"; "l5"; "l6"; "l7"; "foo()"] ∧
  m_lineOffset ex_loaded = 4 ∧
  m_lineOffset ex_unresolved_loaded = INT_MAX - 1 ∧
  elements (m_validLineNumbers ex_loaded) ≡ₚ [5; 7] ∧
  m_validLineNumbers ex_unresolved_loaded = ∅.
Proof.
  split; [by_evaluation|]. split; [reflexivity|].
  split; [vm_compute; reflexivity|]. split; [vm_compute; reflexivity|].
  split; [vm_compute; reflexivity|]. split; [vm_compute; reflexivity|].
  split.
  { intros H. apply (f_equal m_lineOffset) in H. vm_compute in H. discriminate. }
  split; [vm_compute; reflexivity|]. split; [vm_compute; reflexivity|].
  split; [vm_compute; reflexivity|]. split; [vm_compute; reflexivity|].
  split; [vm_compute; apply perm_swap|].
  vm_compute. reflexivity.
Qed.

(** ** Cell queries on an index of the table *)

Lemma hasIndex_bounds m r c :
  hasIndex m r c InvalidIndex = true →
  0 ≤ r < Z.of_nat (length (m_sourceCode m)) ∧ 0 ≤ c < COLUMN_COUNT + m_numTypes m.
Proof.
  unfold hasIndex, rowCount, columnCount. simpl.
  destruct (bool_decide (r < 0)) eqn:Er; simpl; [done|].
  destruct (bool_decide (c < 0)) eqn:Ec; simpl; [done|].
  apply bool_decide_eq_false in Er, Ec.
  intros [Hr Hc]%andb_true_iff. apply bool_decide_eq_true in Hr, Hc. lia.
Qed.

(** Under [hasIndex] the row read by [data] exists: its [at] is in range. *)
Lemma data_row_in_range m r c :
  hasIndex m r c InvalidIndex = true → is_Some (m_sourceCode m !! Z.to_nat r).
Proof.
  intros [Hr _]%hasIndex_bounds. apply lookup_lt_is_Some. lia.
Qed.

Lemma data_HighlightRole fmt m r c :
  hasIndex m r c InvalidIndex = true →
  data fmt m (Index r c) HighlightRole =
    VBool (bool_decide (r + m_lineOffset m = m_highlightLine m)).
Proof.
  intros Hidx. pose proof (hasIndex_bounds _ _ _ Hidx) as [Hr _].
  destruct (data_row_in_range _ _ _ Hidx) as [line Hline].
  unfold data, parent. cbn [row column]. rewrite Hidx. cbn [negb].
  rewrite (bool_decide_eq_false_2 (r > _)) by lia.
  rewrite (bool_decide_eq_false_2 (r < 0)) by lia. cbn [orb].
  by rewrite Hline.
Qed.

Lemma data_RainbowLineNumberRole fmt m r c :
  hasIndex m r c InvalidIndex = true →
  data fmt m (Index r c) RainbowLineNumberRole =
    if decide (r + m_lineOffset m ∈ m_validLineNumbers m)
    then VInt (r + m_lineOffset m) else VInt (-1).
Proof.
  intros Hidx. pose proof (hasIndex_bounds _ _ _ Hidx) as [Hr _].
  destruct (data_row_in_range _ _ _ Hidx) as [line Hline].
  unfold data, parent. cbn [row column]. rewrite Hidx. cbn [negb].
  rewrite (bool_decide_eq_false_2 (r > _)) by lia.
  rewrite (bool_decide_eq_false_2 (r < 0)) by lia. cbn [orb].
  by rewrite Hline.
Qed.

Lemma data_without_rows fmt m index role :
  m_sourceCode m = [] → data fmt m index role = Invalid.
Proof.
  intros Hempty. unfold data.
  assert (hasIndex m (row index) (column index) (parent index) = false) as ->; [|done].
  unfold hasIndex, rowCount. simpl. rewrite Hempty. simpl.
  destruct (bool_decide (row index < 0)) eqn:Er; simpl; [done|].
  apply bool_decide_eq_false in Er.
  destruct (bool_decide (column index < 0)); simpl; [done|].
  rewrite (bool_decide_eq_false_2 (row index < 0)) by lia. done.
Qed.

(** ** C6: clear *)

(** C6, as stated, fails: on the loaded scenario, whose cost context has one
    cost type, [clear] leaves three columns, the offset 4, the valid lines and
    the accumulated costs. *)
Lemma C6_clear_keeps_derived_state_counterexample :
  rowCount (clear ex_loaded) InvalidIndex = 0 ∧
  columnCount (clear ex_loaded) InvalidIndex = 3 ∧
  columnCount (clear ex_loaded) InvalidIndex ≠ 2 ∧
  m_lineOffset (clear ex_loaded) = 4 ∧
  m_validLineNumbers (clear ex_loaded) ≠ ∅ ∧
  Data.cost (m_costs (clear ex_loaded)) 0 5 = 5%N.
Proof.
  split; [reflexivity|]. split; [reflexivity|]. split; [discriminate|].
  split; [reflexivity|]. split; [|reflexivity].
  intros H. assert (H5 : 5 ∈ m_validLineNumbers (clear ex_loaded)) by by_evaluation.
  rewrite H in H5. by apply not_elem_of_empty in H5.
Qed.

(** C6, amended.  After [clear] the row list is empty: [rowCount] is 0 and no
    cell has a value.  [columnCount] is unchanged, 2 plus the cost-type count
    of the active cost context, and the valid-line set, the accumulated costs,
    the line offset and the highlighted line are left as they were. *)
Theorem C6_clear_empties_rows_only m :
  m_sourceCode (clear m) = []
  ∧ rowCount (clear m) InvalidIndex = 0
  ∧ (∀ fmt index role, data fmt (clear m) index role = Invalid)
  ∧ columnCount (clear m) InvalidIndex = 2 + m_numTypes m
  ∧ (∀ parent, columnCount (clear m) parent = columnCount m parent)
  ∧ m_validLineNumbers (clear m) = m_validLineNumbers m
  ∧ m_costs (clear m) = m_costs m
  ∧ m_lineOffset (clear m) = m_lineOffset m
  ∧ m_highlightLine (clear m) = m_highlightLine m
  ∧ m_numTypes (clear m) = m_numTypes m
  ∧ m_callerCalleeResults (clear m) = m_callerCalleeResults m
  ∧ m_sysroot (clear m) = m_sysroot m.
Proof.
  repeat split.
  intros fmt index role. by apply data_without_rows.
Qed.

(** ** C7: setCallerCalleeResults *)

(** C7, as stated, fails: on the loaded scenario [setCallerCalleeResults]
    leaves the four rows and the accumulated costs in place. *)
Lemma C7_cost_context_keeps_rows_counterexample :
  rowCount (setCallerCalleeResults ex_results ex_loaded) InvalidIndex = 4 ∧
  rowCount (setCallerCalleeResults ex_results ex_loaded) InvalidIndex ≠ 0 ∧
  m_sourceCode (setCallerCalleeResults ex_results ex_loaded)
    = ["foo()"; "l5"; "l6"; "l7"] ∧
  Data.cost (m_costs (setCallerCalleeResults ex_results ex_loaded)) 0 5 = 5%N.
Proof.
  split; [reflexivity|]. split; [discriminate|]. split; reflexivity.
Qed.

(** C7, amended.  [setCallerCalleeResults] changes the active cost context and
    the cost-type count and nothing else: afterwards [columnCount] is 2 plus
    the new count, while the displayed rows, [rowCount], the accumulated
    per-line costs, the valid-line set, the line offset and the highlighted
    line are what they were. *)
Theorem C7_cost_context_frame results m :
  m_callerCalleeResults (setCallerCalleeResults results m) = results
  ∧ m_numTypes (setCallerCalleeResults results m)
    = Z.of_nat (Data.numTypes (Data.selfCosts results))
  ∧ columnCount (setCallerCalleeResults results m) InvalidIndex
    = 2 + Z.of_nat (Data.numTypes (Data.selfCosts results))
  ∧ (∀ parent, rowCount (setCallerCalleeResults results m) parent = rowCount m parent)
  ∧ m_sourceCode (setCallerCalleeResults results m) = m_sourceCode m
  ∧ m_costs (setCallerCalleeResults results m) = m_costs m
  ∧ m_validLineNumbers (setCallerCalleeResults results m) = m_validLineNumbers m
  ∧ m_lineOffset (setCallerCalleeResults results m) = m_lineOffset m
  ∧ m_highlightLine (setCallerCalleeResults results m) = m_highlightLine m
  ∧ m_sysroot (setCallerCalleeResults results m) = m_sysroot m.
Proof. repeat split. Qed.

(** ** C8: the valid-line set *)

Lemma cost_out_of_range c type L :
  (length (Data.costs c) ≤ type)%nat → Data.cost c type L = 0%N.
Proof.
  intros Hge. unfold Data.cost. by rewrite (lookup_ge_None_2 _ _ Hge).
Qed.

Lemma sumN_zero {A} (f : A → N) (l : list A) :
  (∀ x, x ∈ l → f x = 0%N) → sumN (f <$> l) = 0%N.
Proof.
  unfold sumN. induction l as [|x l IH]; intros Hall; [done|].
  rewrite fmap_cons. cbn [foldr].
  rewrite (Hall x) by constructor. rewrite IH; [done|].
  intros y Hy. apply Hall. by constructor.
Qed.

(** C8.  After a completed load the valid-line set holds exactly the non-zero
    source lines that some entry of the disassembly resolves to, whether or not
    an address carried cost: a line all of whose entries have no recorded cost
    is valid with accumulated cost 0.  On every index of the table the
    RainbowLineNumberRole query returns row + offset when that line is valid
    and -1 otherwise. *)
Theorem C8_valid_lines fmt build fs d m content m' :
  opens fs d m content →
  setDisassembly build fs d m = Returned m' →
  (∀ L, L ∈ m_validLineNumbers m' ↔
          L ≠ 0 ∧ ∃ l, l ∈ disassemblyLines d ∧ sourceCodeLine l = L)
  ∧ (∀ L type,
       L ≠ 0 →
       (∃ l, l ∈ disassemblyLines d ∧ sourceCodeLine l = L) →
       (∀ l, l ∈ disassemblyLines d → sourceCodeLine l = L →
             Data.offsetMap (Data.entry (m_callerCalleeResults m) (symbol d)) !! addr l
             = None) →
       L ∈ m_validLineNumbers m' ∧ Data.cost (m_costs m') type L = 0%N)
  ∧ (∀ r c, hasIndex m' r c InvalidIndex = true →
       data fmt m' (Index r c) RainbowLineNumberRole =
         if decide (r + m_lineOffset m' ∈ m_validLineNumbers m')
         then VInt (r + m_lineOffset m') else VInt (-1)).
Proof.
  intros Hopen Hload.
  assert (Hvalid : ∀ L, L ∈ m_validLineNumbers m' ↔
                        L ≠ 0 ∧ ∃ l, l ∈ disassemblyLines d ∧ sourceCodeLine l = L).
  { destruct (setDisassembly_returned _ _ _ _ _ _ Hopen Hload) as (_ & rows & _ & ->).
    intros L. simpl. unfold scan. rewrite scan_fold_valid. simpl.
    split; [intros [H|H]; [by apply not_elem_of_empty in H | done] | by right]. }
  split; [exact Hvalid|]. split.
  - intros L type HL Hentry Hnocost. split; [by apply Hvalid|].
    destruct (setDisassembly_returned _ _ _ _ _ _ Hopen Hload) as (_ & rows & _ & ->).
    simpl. unfold scan.
    destruct (decide (type < Data.numTypes (Data.selfCosts (m_callerCalleeResults m)))%nat)
      as [Htype|Htype].
    + rewrite scan_fold_costs; [| by simpl; rewrite length_replicate | done].
      simpl. rewrite cost_initialize, sumN_zero; [done|].
      intros l [Hl HlL]%list_elem_of_filter. unfold entrySelfCost.
      by rewrite (Hnocost l HlL Hl).
    + apply cost_out_of_range. rewrite scan_fold_costs_length. simpl.
      rewrite length_replicate. lia.
  - intros r c Hidx. by apply data_RainbowLineNumberRole.
Qed.

Lemma C8_valid_lines_witness :
  opens ex_fs ex_disassembly ex_fresh ex_text ∧
  setDisassembly Debug ex_fs ex_disassembly ex_fresh = Returned ex_loaded ∧
  (7 ∈ m_validLineNumbers ex_loaded ∧ Data.cost (m_costs ex_loaded) 0 7 = 0%N) ∧
  data ex_format ex_loaded (Index 3 0) RainbowLineNumberRole = VInt 7 ∧
  data ex_format ex_loaded (Index 2 0) RainbowLineNumberRole = VInt (-1).
Proof.
  assert (Hopen : opens ex_fs ex_disassembly ex_fresh ex_text) by by_evaluation.
  assert (Hload : setDisassembly Debug ex_fs ex_disassembly ex_fresh = Returned ex_loaded)
    by (vm_compute; reflexivity).
  destruct (C8_valid_lines ex_format Debug ex_fs ex_disassembly ex_fresh ex_text ex_loaded
              Hopen Hload) as (_ & Hzero & Hquery).
  split; [exact Hopen|]. split; [exact Hload|]. split; [|split].
  - apply Hzero.
    + discriminate.
    + exists (mkLine 24 7). split; [|reflexivity]. by_evaluation.
    + intros l Hl H7. unfold ex_disassembly in Hl. cbn [disassemblyLines] in Hl.
      repeat (apply elem_of_cons in Hl as [->|Hl]; [try discriminate H7; try reflexivity|]).
      by apply elem_of_nil in Hl.
  - rewrite (Hquery 3 0) by reflexivity. reflexivity.
  - rewrite (Hquery 2 0) by reflexivity. reflexivity.
Defined.

(** ** C9: highlighting *)

(** C9.  After [updateHighlighting L] the HighlightRole query on an index of
    the table whose line number row + offset is a value of [int] is true
    exactly when row + offset = L and false on every other such row.  The
    call changes the highlighted line and nothing else, so every cell value of
    the CostRole and TotalCostRole is what it was. *)
Theorem C9_highlight fmt m L :
  (∀ r c, hasIndex (updateHighlighting L m) r c InvalidIndex = true →
     int_range (r + m_lineOffset (updateHighlighting L m)) →
     data fmt (updateHighlighting L m) (Index r c) HighlightRole
       = VBool (bool_decide (r + m_lineOffset (updateHighlighting L m) = L))
     ∧ (data fmt (updateHighlighting L m) (Index r c) HighlightRole = VBool true
        ↔ r + m_lineOffset (updateHighlighting L m) = L)
     ∧ (data fmt (updateHighlighting L m) (Index r c) HighlightRole = VBool false
        ↔ r + m_lineOffset (updateHighlighting L m) ≠ L))
  ∧ (∀ index, data fmt (updateHighlighting L m) index CostRole = data fmt m index CostRole)
  ∧ (∀ index, data fmt (updateHighlighting L m) index TotalCostRole
              = data fmt m index TotalCostRole)
  ∧ (∀ r c parent, hasIndex (updateHighlighting L m) r c parent = hasIndex m r c parent)
  ∧ m_highlightLine (updateHighlighting L m) = L
  ∧ m_sysroot (updateHighlighting L m) = m_sysroot m
  ∧ m_sourceCode (updateHighlighting L m) = m_sourceCode m
  ∧ m_validLineNumbers (updateHighlighting L m) = m_validLineNumbers m
  ∧ m_costs (updateHighlighting L m) = m_costs m
  ∧ m_callerCalleeResults (updateHighlighting L m) = m_callerCalleeResults m
  ∧ m_numTypes (updateHighlighting L m) = m_numTypes m
  ∧ m_lineOffset (updateHighlighting L m) = m_lineOffset m.
Proof.
  split; [|repeat split].
  intros r c Hidx _. rewrite (data_HighlightRole _ _ _ _ Hidx). simpl.
  split; [done|]. split.
  - split; [intros [= H]; by apply bool_decide_eq_true in H|].
    intros H. by rewrite bool_decide_eq_true_2.
  - split; [intros [= H]; by apply bool_decide_eq_false in H|].
    intros H. by rewrite bool_decide_eq_false_2.
Qed.

Lemma C9_highlight_witness :
  hasIndex (updateHighlighting 7 ex_loaded) 3 0 InvalidIndex = true ∧
  int_range (3 + m_lineOffset (updateHighlighting 7 ex_loaded)) ∧
  int_range (1 + m_lineOffset (updateHighlighting 7 ex_loaded)) ∧
  data ex_format (updateHighlighting 7 ex_loaded) (Index 3 0) HighlightRole = VBool true ∧
  data ex_format (updateHighlighting 7 ex_loaded) (Index 1 0) HighlightRole = VBool false ∧
  data ex_format (updateHighlighting 7 ex_loaded) (Index 1 2) CostRole
    = data ex_format ex_loaded (Index 1 2) CostRole.
Proof.
  destruct (C9_highlight ex_format ex_loaded 7) as (Hflag & Hcost & _).
  assert (Hrow3 : int_range (3 + m_lineOffset (updateHighlighting 7 ex_loaded)))
    by by_evaluation.
  assert (Hrow1 : int_range (1 + m_lineOffset (updateHighlighting 7 ex_loaded)))
    by by_evaluation.
  split; [reflexivity|]. split; [exact Hrow3|]. split; [exact Hrow1|].
  split; [|split].
  - apply (Hflag 3 0); [reflexivity | exact Hrow3 | reflexivity].
  - apply (Hflag 1 0); [reflexivity | exact Hrow1 | discriminate].
  - apply Hcost.
Defined.

(** ** C10: the file must be as long as the highest referenced line *)

(** C10.  The copying loop reads [lines[i]] for i from min - 1 to max - 1 with
    no bounds check.  Whenever the load reaches the loop (the assertions hold
    or are compiled out) and the file, split on line feeds, has fewer than max
    lines, the load indexes out of bounds; with at least max lines, and a
    positive minimum, it does not. *)
Theorem C10_file_length_precondition build fs d m content mn mx :
  opens fs d m content →
  int_lines d →
  minimumOf (referencedLines d) mn →
  maximumOf (referencedLines d) mx →
  assertionsPass build (scan (m_callerCalleeResults m) d) →
  (Z.of_nat (length (split LF content)) < mx →
   setDisassembly build fs d m = OutOfBounds)
  ∧ (0 < mn → mx ≤ Z.of_nat (length (split LF content)) →
     ∃ m', setDisassembly build fs d m = Returned m')
  ∧ (setDisassembly build fs d m = OutOfBounds ↔
     ∃ i, mn - 1 ≤ i ≤ Z.max 0 mx - 1 ∧ lineAt (split LF content) i = None).
Proof.
  intros Hopen Hint Hmin Hmax Hpass.
  pose proof (minimum_le_maximum _ _ _ Hmin Hmax) as Hle.
  pose proof (split_length LF content) as Hlen.
  destruct (assertions_pass _ _ Hpass) as [Ha1 Ha2].
  pose proof (setDisassembly_opened build _ _ _ _ Hopen) as Hrun.
  cbv zeta in Hrun. rewrite Ha1, Ha2 in Hrun. cbn [negb] in Hrun.
  rewrite (scan_min _ _ _ Hint Hmin), (scan_max _ _ _ Hmax) in Hrun.
  rewrite pushLines_spec in Hrun.
  split; [|split].
  - intros Hshort. rewrite Hrun, decide_False by lia. done.
  - intros Hpos Hlong. rewrite Hrun, decide_True by lia. eauto.
  - rewrite Hrun. case_decide as Hbounds.
    + split; [done|]. intros (i & Hi & Hnone). exfalso.
      unfold lineAt in Hnone. destruct (decide (i < 0)); [lia|].
      apply lookup_ge_None in Hnone. lia.
    + split; [|done]. intros _.
      destruct (decide (mn - 1 < 0)) as [Hneg|Hnonneg].
      * exists (mn - 1). split; [lia|]. unfold lineAt. by rewrite decide_True.
      * exists (Z.max 0 mx - 1). split; [lia|]. unfold lineAt.
        rewrite decide_False by lia. apply lookup_ge_None. lia.
Qed.

Lemma C10_file_length_precondition_witness :
  opens ex_fs ex_beyond ex_fresh ex_text ∧
  int_lines ex_beyond ∧
  minimumOf (referencedLines ex_beyond) 5 ∧
  maximumOf (referencedLines ex_beyond) 12 ∧
  assertionsPass Debug (scan (m_callerCalleeResults ex_fresh) ex_beyond) ∧
  Z.of_nat (length (split LF ex_text)) < 12 ∧
  setDisassembly Debug ex_fs ex_beyond ex_fresh = OutOfBounds.
Proof.
  assert (Hopen : opens ex_fs ex_beyond ex_fresh ex_text) by by_evaluation.
  assert (Hint : int_lines ex_beyond) by by_evaluation.
  assert (Hmin : minimumOf (referencedLines ex_beyond) 5) by by_evaluation.
  assert (Hmax : maximumOf (referencedLines ex_beyond) 12) by by_evaluation.
  assert (Hpass : assertionsPass Debug (scan (m_callerCalleeResults ex_fresh) ex_beyond)).
  { right. vm_compute. split; reflexivity. }
  assert (Hshort : Z.of_nat (length (split LF ex_text)) < 12) by (vm_compute; reflexivity).
  split; [exact Hopen|]. split; [exact Hint|]. split; [exact Hmin|].
  split; [exact Hmax|]. split; [exact Hpass|]. split; [exact Hshort|].
  destruct (C10_file_length_precondition Debug ex_fs ex_beyond ex_fresh ex_text 5 12
              Hopen Hint Hmin Hmax Hpass) as (Hoob & _ & _).
  exact (Hoob Hshort).
Defined.

(** * Further properties of the model *)

(** ** Header labels *)

Lemma headerData_labels_aux tr m section :
  2 ≤ section < columnCount m InvalidIndex →
  headerData tr m section Horizontal DisplayRole =
    VString (Data.typeName (m_costs m) (Z.to_nat (section - 2))).
Proof.
  unfold headerData, columnCount, COLUMN_COUNT, SourceCodeColumn, SourceCodeLineNumber.
  simpl. intros Hsec.
  rewrite (bool_decide_eq_false_2 (section < 0)) by lia.
  rewrite (bool_decide_eq_false_2 (section >= _)) by lia. simpl.
  repeat case_decide; try done; lia.
Qed.

(** X1.  [headerData] answers exactly for the display role, the horizontal
    orientation and a section that is a column of the table: the guard on the
    section bounds the same range as [columnCount]. *)
Theorem headerData_valid_iff_column tr m section orientation role :
  headerData tr m section orientation role ≠ Invalid ↔
    0 ≤ section < columnCount m InvalidIndex ∧ role = DisplayRole ∧
    orientation = Horizontal.
Proof.
  unfold headerData, columnCount. simpl.
  destruct (decide (section < 0)) as [Hneg|Hneg].
  { rewrite (bool_decide_eq_true_2 _ Hneg). simpl. split; [done | lia]. }
  rewrite (bool_decide_eq_false_2 _ Hneg). simpl.
  destruct (decide (section >= COLUMN_COUNT + m_numTypes m)) as [Hbig|Hbig].
  { rewrite (bool_decide_eq_true_2 _ Hbig). split; [done | lia]. }
  rewrite (bool_decide_eq_false_2 _ Hbig).
  destruct (decide (role = DisplayRole)) as [->|Hrole].
  2:{ rewrite (bool_decide_eq_true_2 _ Hrole). simpl. split; [done | tauto]. }
  rewrite (bool_decide_eq_false_2 (DisplayRole ≠ DisplayRole)) by tauto. simpl.
  destruct (decide (orientation = Horizontal)) as [->|Hor].
  2:{ rewrite (bool_decide_eq_true_2 _ Hor). split; [done | tauto]. }
  rewrite (bool_decide_eq_false_2 (Horizontal ≠ Horizontal)) by tauto.
  split; [intros _; repeat split; lia|]. intros _.
  repeat case_decide; try discriminate. lia.
Qed.

(** X2.  The labels: "Source Code" for column 0, "Line" for column 1 and, for
    every cost column, the name the accumulated cost table gives to the cost
    type of index column - 2.  The last comparison of the function,
    [section - COLUMN_COUNT <= m_numTypes], always holds where it is
    evaluated. *)
Theorem headerData_labels tr m section :
  0 ≤ section < columnCount m InvalidIndex →
  headerData tr m section Horizontal DisplayRole =
    if decide (section = 0) then VString (tr "Source Code")
    else if decide (section = 1) then VString (tr "Line")
    else VString (Data.typeName (m_costs m) (Z.to_nat (section - 2))).
Proof.
  unfold headerData, columnCount, COLUMN_COUNT, SourceCodeColumn, SourceCodeLineNumber.
  simpl. intros Hsec.
  rewrite (bool_decide_eq_false_2 (section < 0)) by lia.
  rewrite (bool_decide_eq_false_2 (section >= _)) by lia. simpl.
  repeat case_decide; try done; lia.
Qed.

Lemma headerData_labels_witness :
  0 ≤ 2 < columnCount ex_loaded InvalidIndex ∧
  headerData id ex_loaded 2 Horizontal DisplayRole = VString "cycles".
Proof.
  assert (Hsec : 0 ≤ 2 < columnCount ex_loaded InvalidIndex) by (vm_compute; split; [discriminate | reflexivity]).
  split; [exact Hsec|].
  rewrite (headerData_labels id ex_loaded 2 Hsec). reflexivity.
Defined.

(** X3.  The names of the cost columns are read from the accumulated cost
    table, which [setCallerCalleeResults] leaves alone: until the next load,
    every section that was a column before and still is one keeps its old
    label, whatever the new cost context calls its types. *)
Theorem headerData_after_setCallerCalleeResults tr results m section orientation role :
  section < columnCount m InvalidIndex →
  section < columnCount (setCallerCalleeResults results m) InvalidIndex →
  headerData tr (setCallerCalleeResults results m) section orientation role =
    headerData tr m section orientation role.
Proof.
  unfold headerData, columnCount, setCallerCalleeResults, COLUMN_COUNT. simpl.
  intros Hold Hnew.
  destruct (bool_decide (section < 0)); simpl; [done|].
  rewrite !(bool_decide_eq_false_2 (section >= _)) by lia.
  destruct (bool_decide (role ≠ DisplayRole) || bool_decide (orientation ≠ Horizontal));
    [done|].
  repeat case_decide; try done; lia.
Qed.

Lemma headerData_after_setCallerCalleeResults_witness :
  2 < columnCount ex_loaded InvalidIndex ∧
  2 < columnCount (setCallerCalleeResults ex_renamed ex_loaded) InvalidIndex ∧
  headerData id (setCallerCalleeResults ex_renamed ex_loaded) 2 Horizontal DisplayRole
    = VString "cycles".
Proof.
  assert (H1 : 2 < columnCount ex_loaded InvalidIndex) by reflexivity.
  assert (H2 : 2 < columnCount (setCallerCalleeResults ex_renamed ex_loaded) InvalidIndex)
    by reflexivity.
  split; [exact H1|]. split; [exact H2|].
  rewrite (headerData_after_setCallerCalleeResults id ex_renamed ex_loaded 2
             Horizontal DisplayRole H1 H2).
  reflexivity.
Defined.

(** ** Cell values *)

(** Unfolds [data] on an index that [hasIndex] accepts, down to the dispatch
    on the role. *)
Ltac data_in_table Hidx line Hline :=
  let Hr := fresh "Hr" in
  pose proof (hasIndex_bounds _ _ _ Hidx) as [Hr _];
  destruct (data_row_in_range _ _ _ Hidx) as [line Hline];
  unfold data, parent; cbn [row column]; rewrite Hidx; cbn [negb];
  rewrite (bool_decide_eq_false_2 (_ > _)) by lia;
  rewrite (bool_decide_eq_false_2 (_ < 0)) by lia; cbn [orb];
  rewrite Hline.

(** X4.  [data] has a value only for a cell of the table and one of the six
    roles it knows: the invalid index, a negative row or column, a row from
    [rowCount] on and a column from [columnCount] on all give the invalid
    variant, and so does every other Qt role. *)
Theorem data_valid_only_in_table fmt m index role :
  data fmt m index role ≠ Invalid →
  isValid index = true ∧
  0 ≤ row index < rowCount m InvalidIndex ∧
  0 ≤ column index < columnCount m InvalidIndex ∧
  ∀ n, role ≠ OtherRole n.
Proof.
  intros Hvalue.
  destruct (hasIndex m (row index) (column index) (parent index)) eqn:Hidx.
  2:{ exfalso. apply Hvalue. unfold data. by rewrite Hidx. }
  destruct index as [|r c]; [done|]. unfold parent in Hidx. cbn [row column] in *.
  pose proof (hasIndex_bounds _ _ _ Hidx) as [Hr Hc].
  split; [done|]. split; [exact Hr|]. split; [exact Hc|].
  intros n ->. apply Hvalue. data_in_table Hidx line Hline. done.
Qed.

Lemma data_valid_only_in_table_witness :
  data ex_format ex_loaded (Index 1 2) CostRole ≠ Invalid ∧
  0 ≤ row (Index 1 2) < rowCount ex_loaded InvalidIndex.
Proof.
  assert (Hvalue : data ex_format ex_loaded (Index 1 2) CostRole ≠ Invalid)
    by (vm_compute; discriminate).
  split; [exact Hvalue|].
  apply (data_valid_only_in_table ex_format ex_loaded (Index 1 2) CostRole Hvalue).
Defined.

(** X5.  In column 0 the display, tool-tip, cost and total-cost roles all give
    the text of the row; in column 1 they give the line number of the row,
    the value [lineForIndex] computes. *)
Theorem data_text_and_line_number fmt m r role :
  valueRole role →
  (hasIndex m r SourceCodeColumn InvalidIndex = true →
   ∃ line, m_sourceCode m !! Z.to_nat r = Some line ∧
           data fmt m (Index r SourceCodeColumn) role = VString line)
  ∧ (hasIndex m r SourceCodeLineNumber InvalidIndex = true →
     data fmt m (Index r SourceCodeLineNumber) role
       = VInt (lineForIndex m (Index r SourceCodeLineNumber))).
Proof.
  intros Hrole. split; intros Hidx.
  - pose proof (data_row_in_range _ _ _ Hidx) as [text Htext].
    exists text. split; [done|].
    data_in_table Hidx line Hline.
    assert (line = text) as -> by congruence.
    destruct Hrole as [-> | [-> | [-> | ->]]]; reflexivity.
  - data_in_table Hidx line Hline. unfold lineForIndex. cbn [row].
    destruct Hrole as [-> | [-> | [-> | ->]]]; reflexivity.
Qed.

Lemma data_text_and_line_number_witness :
  valueRole ToolTipRole ∧
  hasIndex ex_loaded 2 SourceCodeLineNumber InvalidIndex = true ∧
  data ex_format ex_loaded (Index 2 SourceCodeLineNumber) ToolTipRole = VInt 6.
Proof.
  assert (Hrole : valueRole ToolTipRole) by (right; left; reflexivity).
  assert (Hidx : hasIndex ex_loaded 2 SourceCodeLineNumber InvalidIndex = true)
    by reflexivity.
  split; [exact Hrole|]. split; [exact Hidx|].
  rewrite (proj2 (data_text_and_line_number ex_format ex_loaded 2 ToolTipRole Hrole) Hidx).
  reflexivity.
Defined.

(** X6.  In a cost column (column 2 and up) of the table every one of the
    four value roles has a value: the cost accumulated for the cost type
    column - 2 at the line of the row, the grand total of that type, which is
    the same in every row, or the formatted pair of both.  The comparison
    [column - COLUMN_COUNT < m_numTypes] always holds there, so the function
    never falls through to the invalid variant. *)
Theorem data_cost_cells fmt m r c :
  hasIndex m r c InvalidIndex = true →
  2 ≤ c →
  let type := Z.to_nat (c - 2) in
  let cost := Data.cost (m_costs m) type (r + m_lineOffset m) in
  let total := Data.totalCost (m_costs m) type in
  data fmt m (Index r c) CostRole = VCost cost
  ∧ data fmt m (Index r c) TotalCostRole = VCost total
  ∧ data fmt m (Index r c) DisplayRole = VString (fmt cost total true)
  ∧ data fmt m (Index r c) ToolTipRole = VString (fmt cost total true)
  ∧ (∀ r', hasIndex m r' c InvalidIndex = true →
           data fmt m (Index r' c) TotalCostRole = data fmt m (Index r c) TotalCostRole).
Proof.
  intros Hidx Hc.
  assert (Hcell : ∀ r', hasIndex m r' c InvalidIndex = true →
            ∀ role, valueRole role →
              data fmt m (Index r' c) role =
                match role with
                | CostRole =>
                    VCost (Data.cost (m_costs m) (Z.to_nat (c - 2)) (r' + m_lineOffset m))
                | TotalCostRole => VCost (Data.totalCost (m_costs m) (Z.to_nat (c - 2)))
                | _ => VString (fmt (Data.cost (m_costs m) (Z.to_nat (c - 2))
                                                (r' + m_lineOffset m))
                                     (Data.totalCost (m_costs m) (Z.to_nat (c - 2))) true)
                end).
  { intros r' Hidx' role Hrole.
    pose proof (hasIndex_bounds _ _ _ Hidx') as [_ Hcol].
    data_in_table Hidx' line Hline.
    unfold SourceCodeColumn, SourceCodeLineNumber, COLUMN_COUNT in *.
    destruct Hrole as [-> | [-> | [-> | ->]]];
      rewrite decide_False by lia; rewrite decide_False by lia;
      rewrite decide_True by lia; reflexivity. }
  simpl. repeat split.
  - apply (Hcell r Hidx CostRole). unfold valueRole. tauto.
  - apply (Hcell r Hidx TotalCostRole). unfold valueRole. tauto.
  - apply (Hcell r Hidx DisplayRole). unfold valueRole. tauto.
  - apply (Hcell r Hidx ToolTipRole). unfold valueRole. tauto.
  - intros r' Hidx'.
    rewrite (Hcell r Hidx TotalCostRole), (Hcell r' Hidx' TotalCostRole);
      unfold valueRole; tauto.
Qed.

Lemma data_cost_cells_witness :
  hasIndex ex_loaded 1 2 InvalidIndex = true ∧ 2 ≤ 2 ∧
  data ex_format ex_loaded (Index 1 2) CostRole = VCost 5 ∧
  data ex_format ex_loaded (Index 1 2) TotalCostRole = VCost 104.
Proof.
  assert (Hidx : hasIndex ex_loaded 1 2 InvalidIndex = true) by reflexivity.
  assert (Hc : 2 ≤ 2) by lia.
  destruct (data_cost_cells ex_format ex_loaded 1 2 Hidx Hc) as (Hcost & Htotal & _).
  split; [exact Hidx|]. split; [exact Hc|]. split.
  - rewrite Hcost. reflexivity.
  - rewrite Htotal. reflexivity.
Defined.

(** X7.  At most one line is highlighted: two cells whose HighlightRole is
    true are in the same row, and within a row the flag is the same in every
    column. *)
Theorem highlight_marks_one_row fmt m r1 c1 r2 c2 :
  hasIndex m r1 c1 InvalidIndex = true →
  hasIndex m r2 c2 InvalidIndex = true →
  (data fmt m (Index r1 c1) HighlightRole = VBool true →
   data fmt m (Index r2 c2) HighlightRole = VBool true → r1 = r2)
  ∧ (r1 = r2 →
     data fmt m (Index r1 c1) HighlightRole = data fmt m (Index r2 c2) HighlightRole).
Proof.
  intros H1 H2. rewrite (data_HighlightRole _ _ _ _ H1), (data_HighlightRole _ _ _ _ H2).
  split.
  - intros [= E1] [= E2]. apply bool_decide_eq_true in E1, E2. lia.
  - by intros ->.
Qed.

Lemma highlight_marks_one_row_witness :
  hasIndex (updateHighlighting 7 ex_loaded) 3 0 InvalidIndex = true ∧
  hasIndex (updateHighlighting 7 ex_loaded) 3 2 InvalidIndex = true ∧
  data ex_format (updateHighlighting 7 ex_loaded) (Index 3 0) HighlightRole
    = data ex_format (updateHighlighting 7 ex_loaded) (Index 3 2) HighlightRole.
Proof.
  assert (H1 : hasIndex (updateHighlighting 7 ex_loaded) 3 0 InvalidIndex = true)
    by reflexivity.
  assert (H2 : hasIndex (updateHighlighting 7 ex_loaded) 3 2 InvalidIndex = true)
    by reflexivity.
  split; [exact H1|]. split; [exact H2|].
  apply (highlight_marks_one_row ex_format (updateHighlighting 7 ex_loaded) 3 0 3 2 H1 H2).
  reflexivity.
Defined.

(** ** What a load keeps, and what it depends on *)

(** X8.  However a call of [setDisassembly] returns, it has left the source
    root, the cost context, the cost-type count and the highlighted line as
    they were, so [columnCount] is unchanged, and it has removed or altered no
    row: the rows displayed before are a prefix of the rows displayed after. *)
Theorem setDisassembly_keeps build fs d m m' :
  setDisassembly build fs d m = Returned m' →
  m_sysroot m' = m_sysroot m
  ∧ m_callerCalleeResults m' = m_callerCalleeResults m
  ∧ m_numTypes m' = m_numTypes m
  ∧ m_highlightLine m' = m_highlightLine m
  ∧ (∀ parent, columnCount m' parent = columnCount m parent)
  ∧ m_sourceCode m `prefix_of` m_sourceCode m'
  ∧ rowCount m InvalidIndex ≤ rowCount m' InvalidIndex.
Proof.
  unfold setDisassembly.
  destruct (decide (sourceFileName d = "")) as [Hname|Hname].
  { intros [= <-]. repeat split; try done; try lia. }
  destruct (fs _) as [content|].
  2:{ intros [= <-]. repeat split; try done; try lia. }
  cbv zeta.
  destruct (negb (Q_ASSERT build _)); [done|].
  destruct (negb (Q_ASSERT build _)); [done|].
  destruct (pushLines _ _ _ _) as [rows|] eqn:Hpush; [|done].
  intros [= <-]. apply pushLines_Some in Hpush as [-> _].
  unfold rowCount, columnCount. simpl.
  repeat split; try done.
  - rewrite <- app_assoc. by apply prefix_app_r.
  - rewrite !length_app. lia.
Qed.

Lemma setDisassembly_keeps_witness :
  setDisassembly Debug ex_fs ex_disassembly ex_loaded = Returned ex_reloaded ∧
  m_highlightLine ex_reloaded = m_highlightLine ex_loaded ∧
  m_sourceCode ex_loaded `prefix_of` m_sourceCode ex_reloaded.
Proof.
  assert (Hload : setDisassembly Debug ex_fs ex_disassembly ex_loaded = Returned ex_reloaded)
    by (vm_compute; reflexivity).
  destruct (setDisassembly_keeps Debug ex_fs ex_disassembly ex_loaded ex_reloaded Hload)
    as (_ & _ & _ & Hhigh & _ & Hprefix & _).
  split; [exact Hload|]. split; [exact Hhigh | exact Hprefix].
Defined.

Lemma setDisassembly_same_input build fs d m1 m2 content :
  opens fs d m1 content → sameLoadInput m1 m2 →
  setDisassembly build fs d m1 = setDisassembly build fs d m2.
Proof.
  intros Hopen (Hroot & Hrows & Hresults & Htypes & Hhigh).
  assert (Hopen2 : opens fs d m2 content).
  { destruct Hopen as [Hname Hfile]. split; [done|].
    unfold sourcePath in *. by rewrite <- Hroot. }
  rewrite (setDisassembly_opened _ _ _ _ _ Hopen), (setDisassembly_opened _ _ _ _ _ Hopen2).
  unfold loadedModel. rewrite Hroot, Hrows, Hresults, Htypes, Hhigh. reflexivity.
Qed.

(** X9.  A load that opens its file rebuilds the valid-line set, the cost
    table and the line offset from scratch: two models that agree on the
    source root, the displayed rows, the cost context, the cost-type count and
    the highlighted line give the same outcome, whatever valid lines, costs
    and offset an earlier load left in them. *)
Theorem setDisassembly_ignores_stale_state build fs d m1 m2 content :
  opens fs d m1 content →
  sameLoadInput m1 m2 →
  setDisassembly build fs d m1 = setDisassembly build fs d m2.
Proof.
  intros Hopen (Hroot & Hrows & Hresults & Htypes & Hhigh).
  destruct Hopen as [Hname Hfile]. unfold sourcePath in Hfile.
  unfold setDisassembly. rewrite !decide_False by done.
  rewrite <- Hroot, Hfile, <- Hrows, <- Hresults, <- Htypes, <- Hhigh. reflexivity.
Qed.

Lemma setDisassembly_ignores_stale_state_witness :
  opens ex_fs ex_disassembly (clear ex_loaded) ex_text ∧
  sameLoadInput (clear ex_loaded) ex_fresh ∧
  setDisassembly Debug ex_fs ex_disassembly (clear ex_loaded)
    = setDisassembly Debug ex_fs ex_disassembly ex_fresh.
Proof.
  assert (Hopen : opens ex_fs ex_disassembly (clear ex_loaded) ex_text) by by_evaluation.
  assert (Hsame : sameLoadInput (clear ex_loaded) ex_fresh) by (repeat split).
  split; [exact Hopen|]. split; [exact Hsame|].
  exact (setDisassembly_ignores_stale_state Debug ex_fs ex_disassembly
           (clear ex_loaded) ex_fresh ex_text Hopen Hsame).
Defined.

(** X10.  [clear] followed by a load is idempotent: clearing the model the
    pair has produced and loading the same disassembly again gives that model
    once more. *)
Theorem clear_then_load_idempotent build fs d m content m' :
  opens fs d m content →
  setDisassembly build fs d (clear m) = Returned m' →
  setDisassembly build fs d (clear m') = Returned m'.
Proof.
  intros Hopen Hload. rewrite <- Hload. symmetry.
  assert (Hopen' : opens fs d (clear m) content) by apply Hopen.
  apply (setDisassembly_same_input _ _ _ _ _ content Hopen').
  destruct (setDisassembly_returned _ _ _ _ _ _ Hopen' Hload) as (_ & rows & _ & ->).
  repeat split.
Qed.

Lemma clear_then_load_idempotent_witness :
  opens ex_fs ex_disassembly ex_reloaded ex_text ∧
  setDisassembly Debug ex_fs ex_disassembly (clear ex_reloaded) = Returned ex_loaded ∧
  setDisassembly Debug ex_fs ex_disassembly (clear ex_loaded) = Returned ex_loaded.
Proof.
  assert (Hopen : opens ex_fs ex_disassembly ex_reloaded ex_text) by by_evaluation.
  assert (Hload : setDisassembly Debug ex_fs ex_disassembly (clear ex_reloaded)
                  = Returned ex_loaded) by (vm_compute; reflexivity).
  split; [exact Hopen|]. split; [exact Hload|].
  exact (clear_then_load_idempotent Debug ex_fs ex_disassembly ex_reloaded ex_text
           ex_loaded Hopen Hload).
Defined.

(** ** Debug and release builds *)

(** X11.  A debug build completes a load that opens its file exactly when a
    release build completes it and the disassembly refers to at least two
    different source lines: the second assertion rejects every disassembly
    whose resolved entries all sit on one line, while the first one is implied
    by the bounds of [lines[i]] once the load completes. *)
Theorem debug_load_needs_two_lines fs d m content m' :
  opens fs d m content →
  int_lines d →
  setDisassembly Debug fs d m = Returned m' ↔
    setDisassembly Release fs d m = Returned m' ∧
    ∃ mn mx, minimumOf (referencedLines d) mn ∧ maximumOf (referencedLines d) mx ∧
             mn < mx.
Proof.
  intros Hopen Hint. split.
  - intros Hload.
    destruct (setDisassembly_returned _ _ _ _ _ _ Hopen Hload)
      as (Hpass & rows & Hpush & ->).
    destruct Hpass as [|[Hpos Hlt]]; [done|].
    split.
    { rewrite (setDisassembly_opened _ _ _ _ _ Hopen). cbv zeta. cbn [Q_ASSERT negb].
      by rewrite Hpush. }
    assert (Hsome : referencedLines d ≠ []).
    { intros Hnone. rewrite (scan_unreferenced _ _ Hnone) in Hlt. simpl in Hlt.
      unfold INT_MAX in Hlt. lia. }
    destruct (minimum_exists _ Hsome) as [mn Hmin].
    destruct (maximum_exists _ Hsome) as [mx Hmax].
    exists mn, mx. split; [done|]. split; [done|].
    pose proof (minimum_le_maximum _ _ _ Hmin Hmax).
    rewrite (scan_min _ _ _ Hint Hmin) in Hpos, Hlt.
    rewrite (scan_max _ _ _ Hmax) in Hlt. lia.
  - intros [Hload (mn & mx & Hmin & Hmax & Hlt)].
    destruct (setDisassembly_returned _ _ _ _ _ _ Hopen Hload)
      as (_ & rows & Hpush & ->).
    rewrite (setDisassembly_opened _ _ _ _ _ Hopen). cbv zeta. cbn [Q_ASSERT].
    pose proof Hpush as Hbounds. apply pushLines_Some in Hbounds as [_ Hbounds].
    rewrite (scan_min _ _ _ Hint Hmin), (scan_max _ _ _ Hmax) in Hbounds.
    rewrite (bool_decide_eq_true_2 (minLineNumber _ > 0))
      by (rewrite (scan_min _ _ _ Hint Hmin); lia).
    rewrite (bool_decide_eq_true_2 (minLineNumber _ < maxLineNumber _))
      by (rewrite (scan_min _ _ _ Hint Hmin), (scan_max _ _ _ Hmax); lia).
    cbn [negb]. by rewrite Hpush.
Qed.

Lemma debug_load_needs_two_lines_witness :
  opens ex_fs ex_disassembly ex_fresh ex_text ∧
  int_lines ex_disassembly ∧
  setDisassembly Debug ex_fs ex_disassembly ex_fresh = Returned ex_loaded ∧
  setDisassembly Release ex_fs ex_disassembly ex_fresh = Returned ex_loaded.
Proof.
  assert (Hopen : opens ex_fs ex_disassembly ex_fresh ex_text) by by_evaluation.
  assert (Hint : int_lines ex_disassembly) by by_evaluation.
  assert (Hload : setDisassembly Debug ex_fs ex_disassembly ex_fresh = Returned ex_loaded)
    by (vm_compute; reflexivity).
  split; [exact Hopen|]. split; [exact Hint|]. split; [exact Hload|].
  apply (proj1 (debug_load_needs_two_lines ex_fs ex_disassembly ex_fresh ex_text ex_loaded
                  Hopen Hint) Hload).
Defined.

(** X12.  A load that a debug build completes has passed both assertions and
    the bounds of every [lines[i]]: the line offset is not negative and the
    load has appended the label and at least two lines of the file. *)
Theorem debug_load_appends_window fs d m content m' :
  opens fs d m content →
  setDisassembly Debug fs d m = Returned m' →
  0 ≤ m_lineOffset m'
  ∧ rowCount m InvalidIndex + 3 ≤ rowCount m' InvalidIndex
  ∧ 2 ≤ Z.of_nat (length (split LF content)).
Proof.
  intros Hopen Hload.
  destruct (setDisassembly_returned _ _ _ _ _ _ Hopen Hload)
    as (Hpass & rows & Hpush & ->).
  destruct Hpass as [|[Hmin Hmax]]; [done|].
  apply pushLines_Some in Hpush as [-> Hbounds].
  unfold rowCount. simpl. rewrite !length_app. simpl.
  rewrite length_take_le by (rewrite length_drop; lia).
  repeat split; lia.
Qed.

Lemma debug_load_appends_window_witness :
  opens ex_fs ex_disassembly ex_fresh ex_text ∧
  setDisassembly Debug ex_fs ex_disassembly ex_fresh = Returned ex_loaded ∧
  rowCount ex_fresh InvalidIndex + 3 ≤ rowCount ex_loaded InvalidIndex.
Proof.
  assert (Hopen : opens ex_fs ex_disassembly ex_fresh ex_text) by by_evaluation.
  assert (Hload : setDisassembly Debug ex_fs ex_disassembly ex_fresh = Returned ex_loaded)
    by (vm_compute; reflexivity).
  split; [exact Hopen|]. split; [exact Hload|].
  apply (debug_load_appends_window ex_fs ex_disassembly ex_fresh ex_text ex_loaded
           Hopen Hload).
Defined.

(** ** Valid lines, costs and the displayed window *)

Lemma valid_iff_referenced build fs d m content m' L :
  opens fs d m content →
  setDisassembly build fs d m = Returned m' →
  L ∈ m_validLineNumbers m' ↔ L ∈ referencedLines d.
Proof.
  intros Hopen Hload.
  destruct (setDisassembly_returned _ _ _ _ _ _ Hopen Hload) as (_ & rows & _ & ->).
  simpl. unfold scan, referencedLines. rewrite scan_fold_valid. simpl.
  rewrite list_elem_of_filter, list_elem_of_fmap. split.
  - intros [H|[HL (l & Hl & <-)]]; [by apply not_elem_of_empty in H|].
    split; [done|]. by exists l.
  - intros [HL (l & -> & Hl)]. right. split; [done|]. by exists l.
Qed.

Lemma cost_nonzero_valid build fs d m content m' type L :
  opens fs d m content →
  setDisassembly build fs d m = Returned m' →
  Data.cost (m_costs m') type L ≠ 0%N →
  L ∈ m_validLineNumbers m'.
Proof.
  intros Hopen Hload Hcost.
  apply (valid_iff_referenced _ _ _ _ _ _ _ Hopen Hload).
  destruct (setDisassembly_returned _ _ _ _ _ _ Hopen Hload) as (_ & rows & _ & ->).
  simpl in Hcost. unfold scan in Hcost.
  destruct (decide (L = 0)) as [->|HL].
  { rewrite scan_fold_costs_zero in Hcost. simpl in Hcost.
    by rewrite cost_initialize in Hcost. }
  destruct (decide (type < Data.numTypes (Data.selfCosts (m_callerCalleeResults m)))%nat)
    as [Htype|Htype].
  2:{ rewrite cost_out_of_range in Hcost; [done|].
      rewrite scan_fold_costs_length. simpl. rewrite length_replicate. lia. }
  rewrite scan_fold_costs in Hcost; [| by simpl; rewrite length_replicate | done].
  simpl in Hcost. rewrite cost_initialize in Hcost.
  destruct (filter (λ l, sourceCodeLine l = L) (disassemblyLines d)) as [|l ls] eqn:Hfilter.
  { done. }
  assert (Hl : l ∈ filter (λ l, sourceCodeLine l = L) (disassemblyLines d)).
  { rewrite Hfilter. constructor. }
  apply list_elem_of_filter in Hl as [HlL Hl].
  unfold referencedLines. apply list_elem_of_filter. split; [done|].
  apply list_elem_of_fmap. by exists l.
Qed.

Lemma data_CostRole fmt m r c :
  hasIndex m r c InvalidIndex = true → 2 ≤ c →
  data fmt m (Index r c) CostRole =
    VCost (Data.cost (m_costs m) (Z.to_nat (c - 2)) (r + m_lineOffset m)).
Proof.
  intros Hidx Hc. pose proof (hasIndex_bounds _ _ _ Hidx) as [_ Hcol].
  data_in_table Hidx line Hline.
  unfold SourceCodeColumn, SourceCodeLineNumber, COLUMN_COUNT in *.
  rewrite decide_False by lia. rewrite decide_False by lia.
  rewrite decide_True by lia. reflexivity.
Qed.

(** X13.  A line with a non-zero accumulated cost is always a valid line, and
    never line 0: after a load, no cost is shown on a line that the valid-line
    set does not hold. *)
Theorem cost_only_on_valid_lines build fs d m content m' type L :
  opens fs d m content →
  setDisassembly build fs d m = Returned m' →
  Data.cost (m_costs m') type L ≠ 0%N →
  L ∈ m_validLineNumbers m' ∧ L ≠ 0.
Proof.
  intros Hopen Hload Hcost.
  pose proof (cost_nonzero_valid _ _ _ _ _ _ _ _ Hopen Hload Hcost) as Hvalid.
  split; [exact Hvalid|].
  apply (valid_iff_referenced _ _ _ _ _ _ _ Hopen Hload) in Hvalid.
  unfold referencedLines in Hvalid. by apply list_elem_of_filter in Hvalid as [? _].
Qed.

Lemma cost_only_on_valid_lines_witness :
  opens ex_fs ex_disassembly ex_fresh ex_text ∧
  setDisassembly Debug ex_fs ex_disassembly ex_fresh = Returned ex_loaded ∧
  Data.cost (m_costs ex_loaded) 0 5 ≠ 0%N ∧
  5 ∈ m_validLineNumbers ex_loaded.
Proof.
  assert (Hopen : opens ex_fs ex_disassembly ex_fresh ex_text) by by_evaluation.
  assert (Hload : setDisassembly Debug ex_fs ex_disassembly ex_fresh = Returned ex_loaded)
    by (vm_compute; reflexivity).
  assert (Hcost : Data.cost (m_costs ex_loaded) 0 5 ≠ 0%N) by (vm_compute; discriminate).
  split; [exact Hopen|]. split; [exact Hload|]. split; [exact Hcost|].
  exact (proj1 (cost_only_on_valid_lines Debug ex_fs ex_disassembly ex_fresh ex_text
                  ex_loaded 0%nat 5 Hopen Hload Hcost)).
Defined.

(** X14.  After a load into a model without rows, every valid line is on
    display: the valid line L has the row L - offset, a row after the label
    and inside the table, and that row holds line L of the file. *)
Theorem valid_lines_are_displayed build fs d m content m' L :
  opens fs d m content →
  int_lines d →
  m_sourceCode m = [] →
  setDisassembly build fs d m = Returned m' →
  L ∈ m_validLineNumbers m' →
  1 ≤ L - m_lineOffset m' < rowCount m' InvalidIndex
  ∧ lineForIndex m' (Index (L - m_lineOffset m') 0) = L
  ∧ ∃ text, m_sourceCode m' !! Z.to_nat (L - m_lineOffset m') = Some text ∧
            split LF content !! Z.to_nat (L - 1) = Some text.
Proof.
  intros Hopen Hint Hempty Hload Hvalid.
  apply (valid_iff_referenced _ _ _ _ _ _ _ Hopen Hload) in Hvalid.
  assert (Hsome : referencedLines d ≠ []).
  { intros Hnil. rewrite Hnil in Hvalid. by apply elem_of_nil in Hvalid. }
  destruct (minimum_exists _ Hsome) as [mn Hmin].
  destruct (maximum_exists _ Hsome) as [mx Hmax].
  destruct (loaded_rows _ _ _ _ _ _ _ _ Hopen Hint Hmin Hmax Hload)
    as (H1 & Hle & Hlen & Hoff & Hrows).
  rewrite Hempty in Hrows. simpl in Hrows.
  assert (mn ≤ L ≤ mx) as HL.
  { destruct Hmin as [_ Hlo]. destruct Hmax as [_ Hhi].
    rewrite Forall_forall in Hlo, Hhi. split; [by apply Hlo | by apply Hhi]. }
  assert (Hwindow : length (take (Z.to_nat (mx - mn + 1))
                              (drop (Z.to_nat (mn - 1)) (split LF content)))
                    = Z.to_nat (mx - mn + 1)).
  { rewrite length_take_le; [done|]. rewrite length_drop. lia. }
  unfold lineForIndex, rowCount. cbn [row isValid]. rewrite Hoff, Hrows. simpl length.
  rewrite Hwindow. split; [lia|]. split; [lia|].
  assert (Htext : is_Some (split LF content !! Z.to_nat (L - 1))).
  { apply lookup_lt_is_Some. lia. }
  destruct Htext as [text Htext]. exists text. split; [|exact Htext].
  rewrite lookup_cons_ne_0 by lia. rewrite lookup_take_lt by lia.
  rewrite lookup_drop, <- Htext. f_equal. lia.
Qed.

Lemma valid_lines_are_displayed_witness :
  opens ex_fs ex_disassembly ex_fresh ex_text ∧
  int_lines ex_disassembly ∧
  m_sourceCode ex_fresh = [] ∧
  setDisassembly Debug ex_fs ex_disassembly ex_fresh = Returned ex_loaded ∧
  7 ∈ m_validLineNumbers ex_loaded ∧
  1 ≤ 7 - m_lineOffset ex_loaded < rowCount ex_loaded InvalidIndex.
Proof.
  assert (Hopen : opens ex_fs ex_disassembly ex_fresh ex_text) by by_evaluation.
  assert (Hint : int_lines ex_disassembly) by by_evaluation.
  assert (Hempty : m_sourceCode ex_fresh = []) by reflexivity.
  assert (Hload : setDisassembly Debug ex_fs ex_disassembly ex_fresh = Returned ex_loaded)
    by (vm_compute; reflexivity).
  assert (Hvalid : 7 ∈ m_validLineNumbers ex_loaded) by by_evaluation.
  split; [exact Hopen|]. split; [exact Hint|]. split; [exact Hempty|].
  split; [exact Hload|]. split; [exact Hvalid|].
  apply (valid_lines_are_displayed Debug ex_fs ex_disassembly ex_fresh ex_text ex_loaded 7
           Hopen Hint Hempty Hload Hvalid).
Defined.

(** X15.  The window is tight.  After a load into a model without rows, the
    first row after the label and the last row of the table both show a valid
    line: no row is displayed before the first or after the last line that an
    instruction resolves to. *)
Theorem window_starts_and_ends_on_valid_lines build fs d m content m' :
  opens fs d m content →
  int_lines d →
  referencedLines d ≠ [] →
  m_sourceCode m = [] →
  setDisassembly build fs d m = Returned m' →
  lineForIndex m' (Index 1 0) ∈ m_validLineNumbers m'
  ∧ lineForIndex m' (Index (rowCount m' InvalidIndex - 1) 0) ∈ m_validLineNumbers m'
  ∧ 2 ≤ rowCount m' InvalidIndex.
Proof.
  intros Hopen Hint Hsome Hempty Hload.
  destruct (minimum_exists _ Hsome) as [mn Hmin].
  destruct (maximum_exists _ Hsome) as [mx Hmax].
  destruct (loaded_rows _ _ _ _ _ _ _ _ Hopen Hint Hmin Hmax Hload)
    as (H1 & Hle & Hlen & Hoff & Hrows).
  rewrite Hempty in Hrows. simpl in Hrows.
  assert (Hwindow : length (take (Z.to_nat (mx - mn + 1))
                              (drop (Z.to_nat (mn - 1)) (split LF content)))
                    = Z.to_nat (mx - mn + 1)).
  { rewrite length_take_le; [done|]. rewrite length_drop. lia. }
  unfold lineForIndex, rowCount. cbn [row isValid]. rewrite Hoff, Hrows. simpl length.
  rewrite Hwindow.
  split; [|split; [|lia]]; apply (valid_iff_referenced _ _ _ _ _ _ _ Hopen Hload).
  - replace (1 + (mn - 1)) with mn by lia. apply Hmin.
  - replace (Z.of_nat (S (Z.to_nat (mx - mn + 1))) - 1 + (mn - 1)) with mx by lia.
    apply Hmax.
Qed.

Lemma window_starts_and_ends_on_valid_lines_witness :
  opens ex_fs ex_disassembly ex_fresh ex_text ∧
  int_lines ex_disassembly ∧
  referencedLines ex_disassembly ≠ [] ∧
  m_sourceCode ex_fresh = [] ∧
  setDisassembly Debug ex_fs ex_disassembly ex_fresh = Returned ex_loaded ∧
  lineForIndex ex_loaded (Index 1 0) ∈ m_validLineNumbers ex_loaded.
Proof.
  assert (Hopen : opens ex_fs ex_disassembly ex_fresh ex_text) by by_evaluation.
  assert (Hint : int_lines ex_disassembly) by by_evaluation.
  assert (Hsome : referencedLines ex_disassembly ≠ []) by (vm_compute; discriminate).
  assert (Hempty : m_sourceCode ex_fresh = []) by reflexivity.
  assert (Hload : setDisassembly Debug ex_fs ex_disassembly ex_fresh = Returned ex_loaded)
    by (vm_compute; reflexivity).
  split; [exact Hopen|]. split; [exact Hint|]. split; [exact Hsome|].
  split; [exact Hempty|]. split; [exact Hload|].
  apply (window_starts_and_ends_on_valid_lines Debug ex_fs ex_disassembly ex_fresh ex_text
           ex_loaded Hopen Hint Hsome Hempty Hload).
Defined.

(** X16.  The label row stands for the line just before the window: after a
    load, the line number of row 0 is not a valid line and carries no cost, so
    on row 0 the RainbowLineNumberRole query gives -1 and the CostRole query
    of every cost column gives 0. *)
Theorem label_row_is_neither_valid_nor_costed fmt build fs d m content m' :
  opens fs d m content →
  int_lines d →
  referencedLines d ≠ [] →
  setDisassembly build fs d m = Returned m' →
  (lineForIndex m' (Index 0 0) ∉ m_validLineNumbers m')
  ∧ (∀ type, Data.cost (m_costs m') type (lineForIndex m' (Index 0 0)) = 0%N)
  ∧ (∀ c, hasIndex m' 0 c InvalidIndex = true →
          data fmt m' (Index 0 c) RainbowLineNumberRole = VInt (-1)
          ∧ (2 ≤ c → data fmt m' (Index 0 c) CostRole = VCost 0)).
Proof.
  intros Hopen Hint Hsome Hload.
  destruct (minimum_exists _ Hsome) as [mn Hmin].
  assert (Hoff : m_lineOffset m' = mn - 1).
  { destruct (setDisassembly_returned _ _ _ _ _ _ Hopen Hload) as (_ & rows & _ & ->).
    simpl. by rewrite (scan_min _ _ _ Hint Hmin). }
  assert (Hnot : 0 + m_lineOffset m' ∉ m_validLineNumbers m').
  { rewrite Hoff. intros Hvalid.
    apply (valid_iff_referenced _ _ _ _ _ _ _ Hopen Hload) in Hvalid.
    destruct Hmin as [_ Hlo]. rewrite Forall_forall in Hlo.
    specialize (Hlo _ Hvalid). lia. }
  assert (Hzero : ∀ type, Data.cost (m_costs m') type (0 + m_lineOffset m') = 0%N).
  { intros type.
    destruct (decide (Data.cost (m_costs m') type (0 + m_lineOffset m') = 0%N))
      as [|Hcost]; [done|].
    exfalso. apply Hnot. by eapply cost_nonzero_valid. }
  unfold lineForIndex. cbn [row].
  split; [exact Hnot|]. split; [exact Hzero|].
  intros c Hidx. split.
  - rewrite (data_RainbowLineNumberRole _ _ _ _ Hidx). by rewrite decide_False.
  - intros Hc. rewrite (data_CostRole _ _ _ _ Hidx Hc). by rewrite Hzero.
Qed.

Lemma label_row_is_neither_valid_nor_costed_witness :
  opens ex_fs ex_disassembly ex_fresh ex_text ∧
  int_lines ex_disassembly ∧
  referencedLines ex_disassembly ≠ [] ∧
  setDisassembly Debug ex_fs ex_disassembly ex_fresh = Returned ex_loaded ∧
  lineForIndex ex_loaded (Index 0 0) ∉ m_validLineNumbers ex_loaded.
Proof.
  assert (Hopen : opens ex_fs ex_disassembly ex_fresh ex_text) by by_evaluation.
  assert (Hint : int_lines ex_disassembly) by by_evaluation.
  assert (Hsome : referencedLines ex_disassembly ≠ []) by (vm_compute; discriminate).
  assert (Hload : setDisassembly Debug ex_fs ex_disassembly ex_fresh = Returned ex_loaded)
    by (vm_compute; reflexivity).
  split; [exact Hopen|]. split; [exact Hint|]. split; [exact Hsome|].
  split; [exact Hload|].
  apply (label_row_is_neither_valid_nor_costed ex_format Debug ex_fs ex_disassembly
           ex_fresh ex_text ex_loaded Hopen Hint Hsome Hload).
Defined.

(** ** Conservation of cost *)

Lemma sumN_ext {A} (F G : A → N) (xs : list A) :
  (∀ x, x ∈ xs → F x = G x) → sumN (F <$> xs) = sumN (G <$> xs).
Proof.
  unfold sumN. induction xs as [|x xs IH]; intros Hext; [done|].
  rewrite !fmap_cons. cbn [foldr]. rewrite (Hext x) by constructor.
  rewrite IH; [done|]. intros y Hy. apply Hext. by constructor.
Qed.

Lemma sumN_add {A} (F G : A → N) (xs : list A) :
  sumN ((λ x, F x + G x)%N <$> xs) = (sumN (F <$> xs) + sumN (G <$> xs))%N.
Proof.
  unfold sumN. induction xs as [|x xs IH]; [done|].
  rewrite !fmap_cons. cbn [foldr]. rewrite IH. lia.
Qed.

Lemma sumN_indicator (xs : list Z) (a : Z) (v : N) :
  NoDup xs → a ∈ xs →
  sumN ((λ L, if decide (L = a) then v else 0%N) <$> xs) = v.
Proof.
  induction xs as [|x xs IH]; intros Hnodup Hin; [by apply elem_of_nil in Hin|].
  apply NoDup_cons in Hnodup as [Hx Hnodup].
  unfold sumN in *. rewrite fmap_cons. cbn [foldr].
  destruct (decide (x = a)) as [->|Hne].
  - fold (sumN ((λ L, if decide (L = a) then v else 0%N) <$> xs)).
    rewrite sumN_zero; [lia|].
    intros y Hy. rewrite decide_False; [done|]. by intros ->.
  - apply elem_of_cons in Hin as [->|Hin]; [done|]. rewrite IH by done. lia.
Qed.

(** Grouping the entries by source line loses and repeats nothing. *)
Lemma sum_by_line {A} (f : A → N) (g : A → Z) (xs : list Z) (ls : list A) :
  NoDup xs → 0 ∉ xs →
  (∀ l, l ∈ ls → g l ≠ 0 → g l ∈ xs) →
  sumN ((λ L, sumN (f <$> filter (λ l, g l = L) ls)) <$> xs) =
    sumN (f <$> filter (λ l, g l ≠ 0) ls).
Proof.
  intros Hnodup Hzero. induction ls as [|l ls IH]; intros Hcover.
  - by apply sumN_zero.
  - assert (Hcover' : ∀ l', l' ∈ ls → g l' ≠ 0 → g l' ∈ xs).
    { intros l' Hl'. apply Hcover. by constructor. }
    rewrite (filter_cons (λ l, g l ≠ 0)).
    rewrite (sumN_ext _ (λ L, ((if decide (L = g l) then f l else 0) +
                               sumN (f <$> filter (λ l, g l = L) ls))%N)).
    2:{ intros L _. rewrite filter_cons.
        destruct (decide (g l = L)) as [<-|Hne].
        - rewrite decide_True by done. reflexivity.
        - rewrite decide_False by congruence. reflexivity. }
    rewrite sumN_add, (IH Hcover').
    destruct (decide (g l ≠ 0)) as [Hnz|Hz].
    + rewrite sumN_indicator; [reflexivity | done |].
      apply Hcover; [constructor | done].
    + rewrite sumN_zero; [reflexivity|].
      intros L HL. rewrite decide_False; [done|].
      intros ->. apply Hz. intros Heq. apply Hzero. by rewrite <- Heq.
Qed.

(** X17.  Cost is conserved: for every cost type, the costs accumulated on the
    valid lines add up to the self costs recorded for the addresses of all the
    entries with a non-zero source line, each entry counted once. *)
Theorem costs_are_conserved build fs d m content m' type :
  opens fs d m content →
  setDisassembly build fs d m = Returned m' →
  (type < Data.numTypes (Data.selfCosts (m_callerCalleeResults m)))%nat →
  sumN (Data.cost (m_costs m') type <$> elements (m_validLineNumbers m')) =
    sumN (selfCostAt (m_callerCalleeResults m) d type <$>
            disassemblyLines (withoutLineZero d)).
Proof.
  intros Hopen Hload Htype.
  assert (Hvalid : ∀ L, L ∈ elements (m_validLineNumbers m') ↔ L ∈ referencedLines d).
  { intros L. rewrite elem_of_elements.
    apply (valid_iff_referenced _ _ _ _ _ _ _ Hopen Hload). }
  assert (Hnz : ∀ L, L ∈ referencedLines d → L ≠ 0).
  { intros L HL. unfold referencedLines in HL. by apply list_elem_of_filter in HL as [? _]. }
  rewrite (sumN_ext _ (λ L, sumN (selfCostAt (m_callerCalleeResults m) d type <$>
                                    filter (λ l, sourceCodeLine l = L) (disassemblyLines d)))).
  2:{ intros L HL. apply Hvalid, Hnz in HL.
      destruct (setDisassembly_returned _ _ _ _ _ _ Hopen Hload) as (_ & rows & _ & ->).
      simpl. unfold scan, selfCostAt.
      rewrite scan_fold_costs; [| by simpl; rewrite length_replicate | done].
      simpl. by rewrite cost_initialize. }
  unfold withoutLineZero. cbn [disassemblyLines].
  apply sum_by_line.
  - apply NoDup_elements.
  - intros H0. apply Hvalid, Hnz in H0. done.
  - intros l Hl Hline. apply Hvalid. unfold referencedLines.
    apply list_elem_of_filter. split; [done|].
    apply list_elem_of_fmap. by exists l.
Qed.

Lemma costs_are_conserved_witness :
  opens ex_fs ex_disassembly ex_fresh ex_text ∧
  setDisassembly Debug ex_fs ex_disassembly ex_fresh = Returned ex_loaded ∧
  (0 < Data.numTypes (Data.selfCosts (m_callerCalleeResults ex_fresh)))%nat ∧
  sumN (Data.cost (m_costs ex_loaded) 0 <$> elements (m_validLineNumbers ex_loaded)) = 5%N.
Proof.
  assert (Hopen : opens ex_fs ex_disassembly ex_fresh ex_text) by by_evaluation.
  assert (Hload : setDisassembly Debug ex_fs ex_disassembly ex_fresh = Returned ex_loaded)
    by (vm_compute; reflexivity).
  assert (Htype : (0 < Data.numTypes (Data.selfCosts (m_callerCalleeResults ex_fresh)))%nat)
    by (vm_compute; lia).
  split; [exact Hopen|]. split; [exact Hload|]. split; [exact Htype|].
  rewrite (costs_are_conserved Debug ex_fs ex_disassembly ex_fresh ex_text ex_loaded 0%nat
             Hopen Hload Htype).
  vm_compute. reflexivity.
Defined.

(** ** The lines of the file *)

Lemma split_nonempty sep s : split sep s ≠ [].
Proof.
  pose proof (split_length sep s). destruct (split sep s); simpl in *; [lia | done].
Qed.

Lemma join_cons sep part parts :
  parts ≠ [] → join sep (part :: parts) = part +:+ String sep (join sep parts).
Proof. by destruct parts. Qed.

(** X18.  Splitting loses nothing: the parts of a text, put back together with
    the separator between them, are the text again; there is one part more
    than there are separators in the text, so that a file ending in a line
    feed gets an empty last line; and no part contains the separator. *)
Theorem split_is_exact sep s :
  join sep (split sep s) = s
  ∧ length (split sep s) = S (occurrences sep s)
  ∧ Forall (λ part, occurrences sep part = O) (split sep s).
Proof.
  induction s as [|c rest (IHjoin & IHlen & IHparts)]; [by repeat constructor|].
  cbn [split occurrences].
  destruct (decide (c = sep)) as [->|Hne].
  - split; [|split].
    + rewrite join_cons by apply split_nonempty. by rewrite IHjoin.
    + simpl. by rewrite IHlen.
    + by constructor.
  - pose proof (split_nonempty sep rest) as Hrest.
    destruct (split sep rest) as [|part parts]; [done|].
    split; [|split].
    + rewrite <- IHjoin. destruct parts; reflexivity.
    + simpl in *. lia.
    + apply Forall_cons in IHparts as [Hpart Hparts]. constructor; [|done].
      cbn [occurrences]. rewrite decide_False by done. by rewrite Hpart.
Qed.

(** ** Lines that are no line numbers *)

(** X19.  A disassembly entry with a negative source line never yields a
    table: once the file is open, a debug build stops at the assertion
    [minLineNumber > 0] and a release build evaluates [lines[i]] at a negative
    index. *)
Theorem negative_line_never_loads fs d m content l :
  opens fs d m content →
  l ∈ disassemblyLines d →
  sourceCodeLine l < 0 →
  setDisassembly Debug fs d m = AssertFailed
  ∧ setDisassembly Release fs d m = OutOfBounds.
Proof.
  intros Hopen Hl Hneg.
  assert (Hmin : minLineNumber (scan (m_callerCalleeResults m) d) < 0).
  { unfold scan. rewrite scan_fold_min. simpl.
    destruct (foldl_min_le INT_MAX
                (filter (λ z, z ≠ 0) (sourceCodeLine <$> disassemblyLines d)))
      as [_ Hall].
    rewrite Forall_forall in Hall.
    assert (Hin : sourceCodeLine l ∈
                  filter (λ z, z ≠ 0) (sourceCodeLine <$> disassemblyLines d)).
    { apply list_elem_of_filter. split; [lia|]. apply list_elem_of_fmap. by exists l. }
    specialize (Hall _ Hin). lia. }
  assert (Hmax : 0 ≤ maxLineNumber (scan (m_callerCalleeResults m) d)).
  { unfold scan. rewrite scan_fold_max. simpl. apply foldl_max_ge. }
  rewrite !(setDisassembly_opened _ _ _ _ _ Hopen). cbv zeta. cbn [Q_ASSERT negb].
  rewrite (bool_decide_eq_false_2 (minLineNumber _ > 0)) by lia. cbn [negb].
  split; [done|].
  rewrite pushLines_spec, decide_False by lia. done.
Qed.

Lemma negative_line_never_loads_witness :
  opens ex_fs ex_negative ex_fresh ex_text ∧
  mkLine 20 (-1) ∈ disassemblyLines ex_negative ∧
  sourceCodeLine (mkLine 20 (-1)) < 0 ∧
  setDisassembly Release ex_fs ex_negative ex_fresh = OutOfBounds.
Proof.
  assert (Hopen : opens ex_fs ex_negative ex_fresh ex_text) by by_evaluation.
  assert (Hl : mkLine 20 (-1) ∈ disassemblyLines ex_negative) by by_evaluation.
  assert (Hneg : sourceCodeLine (mkLine 20 (-1)) < 0) by reflexivity.
  split; [exact Hopen|]. split; [exact Hl|]. split; [exact Hneg|].
  apply (negative_line_never_loads ex_fs ex_negative ex_fresh ex_text (mkLine 20 (-1))
           Hopen Hl Hneg).
Defined.

(** ** Line numbers stay in the range of [int] *)

(** X20.  After a load into a model without rows, of a disassembly whose
    source lines are values of [int], the line offset lies between 0 and
    INT_MAX - 1 and the line number of every row of the table is a value of
    [int]: [minLineNumber - 1] and the sums [row + m_lineOffset] that [data]
    and [lineForIndex] compute for the rows of the table do not overflow. *)
Theorem line_numbers_fit_int build fs d m content m' :
  opens fs d m content →
  int_lines d →
  referencedLines d ≠ [] →
  m_sourceCode m = [] →
  setDisassembly build fs d m = Returned m' →
  0 ≤ m_lineOffset m' ≤ INT_MAX - 1
  ∧ ∀ r c, 0 ≤ r < rowCount m' InvalidIndex →
           0 ≤ lineForIndex m' (Index r c) ≤ INT_MAX.
Proof.
  intros Hopen Hint Hsome Hempty Hload.
  destruct (minimum_exists _ Hsome) as [mn Hmin].
  destruct (maximum_exists _ Hsome) as [mx Hmax].
  destruct (loaded_rows _ _ _ _ _ _ _ _ Hopen Hint Hmin Hmax Hload)
    as (H1 & Hle & Hlen & Hoff & Hrows).
  rewrite Hempty in Hrows. simpl in Hrows.
  destruct (referenced_int _ _ Hint (proj1 Hmax)) as [[_ Hmx] _].
  assert (Hwindow : length (take (Z.to_nat (mx - mn + 1))
                              (drop (Z.to_nat (mn - 1)) (split LF content)))
                    = Z.to_nat (mx - mn + 1)).
  { rewrite length_take_le; [done|]. rewrite length_drop. lia. }
  unfold lineForIndex, rowCount. cbn [row isValid]. rewrite Hoff, Hrows. simpl length.
  rewrite Hwindow. split; [lia|]. intros r c Hr. lia.
Qed.

Lemma line_numbers_fit_int_witness :
  opens ex_fs ex_disassembly ex_fresh ex_text ∧
  int_lines ex_disassembly ∧
  referencedLines ex_disassembly ≠ [] ∧
  m_sourceCode ex_fresh = [] ∧
  setDisassembly Debug ex_fs ex_disassembly ex_fresh = Returned ex_loaded ∧
  0 ≤ m_lineOffset ex_loaded ≤ INT_MAX - 1.
Proof.
  assert (Hopen : opens ex_fs ex_disassembly ex_fresh ex_text) by by_evaluation.
  assert (Hint : int_lines ex_disassembly) by by_evaluation.
  assert (Hsome : referencedLines ex_disassembly ≠ []) by (vm_compute; discriminate).
  assert (Hempty : m_sourceCode ex_fresh = []) by reflexivity.
  assert (Hload : setDisassembly Debug ex_fs ex_disassembly ex_fresh = Returned ex_loaded)
    by (vm_compute; reflexivity).
  split; [exact Hopen|]. split; [exact Hint|]. split; [exact Hsome|].
  split; [exact Hempty|]. split; [exact Hload|].
  apply (line_numbers_fit_int Debug ex_fs ex_disassembly ex_fresh ex_text ex_loaded
           Hopen Hint Hsome Hempty Hload).
Defined.

(** ** The cost columns after a change of cost context *)

Lemma scan_fold_names_totals entry st ls :
  Data.typeNames (scanCosts (foldl (scanLine entry) st ls)) = Data.typeNames (scanCosts st)
  ∧ Data.totalCosts (scanCosts (foldl (scanLine entry) st ls))
    = Data.totalCosts (scanCosts st).
Proof.
  revert st. induction ls as [|l ls IH]; intros st; simpl; [done|].
  destruct (IH (scanLine entry st l)) as [-> ->].
  unfold scanLine. case_decide; simpl; [done|].
  by destruct (Data.offsetMap entry !! addr l).
Qed.

Lemma data_TotalCostRole fmt m r c :
  hasIndex m r c InvalidIndex = true → 2 ≤ c →
  data fmt m (Index r c) TotalCostRole =
    VCost (Data.totalCost (m_costs m) (Z.to_nat (c - 2))).
Proof.
  intros Hidx Hc. pose proof (hasIndex_bounds _ _ _ Hidx) as [_ Hcol].
  data_in_table Hidx line Hline.
  unfold SourceCodeColumn, SourceCodeLineNumber, COLUMN_COUNT in *.
  rewrite decide_False by lia. rewrite decide_False by lia.
  rewrite decide_True by lia. reflexivity.
Qed.

(** X21.  [setCallerCalleeResults] followed by a completed load brings the
    cost columns in line with the new cost context: there is one column per
    cost type of the context, its header is the name of that type and its
    TotalCostRole cells hold the grand total of that type. *)
Theorem cost_columns_follow_context tr fmt build fs d results m content m' :
  opens fs d (setCallerCalleeResults results m) content →
  setDisassembly build fs d (setCallerCalleeResults results m) = Returned m' →
  columnCount m' InvalidIndex = 2 + Z.of_nat (Data.numTypes (Data.selfCosts results))
  ∧ ∀ c, 2 ≤ c < columnCount m' InvalidIndex →
      headerData tr m' c Horizontal DisplayRole
        = VString (Data.typeName (Data.selfCosts results) (Z.to_nat (c - 2)))
      ∧ ∀ r, hasIndex m' r c InvalidIndex = true →
          data fmt m' (Index r c) TotalCostRole
            = VCost (Data.totalCost (Data.selfCosts results) (Z.to_nat (c - 2))).
Proof.
  intros Hopen Hload.
  destruct (setDisassembly_returned _ _ _ _ _ _ Hopen Hload) as (_ & rows & _ & Hm').
  assert (Hnames : Data.typeNames (m_costs m') = Data.typeNames (Data.selfCosts results)
                   ∧ Data.totalCosts (m_costs m') = Data.totalCosts (Data.selfCosts results)).
  { rewrite Hm'. simpl. unfold scan. apply scan_fold_names_totals. }
  destruct Hnames as [Hnames Htotals].
  assert (Hcount : columnCount m' InvalidIndex
                   = 2 + Z.of_nat (Data.numTypes (Data.selfCosts results))).
  { rewrite Hm'. reflexivity. }
  split; [exact Hcount|]. intros c Hc. split.
  - rewrite headerData_labels_aux by lia.
    unfold Data.typeName. by rewrite Hnames.
  - intros r Hidx. rewrite (data_TotalCostRole _ _ _ _ Hidx) by lia.
    unfold Data.totalCost. by rewrite Htotals.
Qed.

Lemma cost_columns_follow_context_witness :
  opens ex_fs ex_disassembly (setCallerCalleeResults ex_results ex_loaded) ex_text ∧
  setDisassembly Debug ex_fs ex_disassembly (setCallerCalleeResults ex_results ex_loaded)
    = Returned ex_reloaded ∧
  columnCount ex_reloaded InvalidIndex
    = 2 + Z.of_nat (Data.numTypes (Data.selfCosts ex_results)).
Proof.
  assert (Hopen : opens ex_fs ex_disassembly (setCallerCalleeResults ex_results ex_loaded)
                        ex_text) by by_evaluation.
  assert (Hload : setDisassembly Debug ex_fs ex_disassembly
                    (setCallerCalleeResults ex_results ex_loaded) = Returned ex_reloaded)
    by (vm_compute; reflexivity).
  split; [exact Hopen|]. split; [exact Hload|].
  apply (cost_columns_follow_context id ex_format Debug ex_fs ex_disassembly ex_results
           ex_loaded ex_text ex_reloaded Hopen Hload).
Defined.

(** ** setSysroot *)

(** X22.  [setSysroot] changes no answer of the table (counts, cells, headers
    and line numbers are what they were) and decides where the next load
    looks: the file is opened under the new root only, so a load whose file is
    missing there leaves the model as [setSysroot] made it. *)
Theorem setSysroot_redirects_next_load tr fmt root m :
  (∀ parent, rowCount (setSysroot root m) parent = rowCount m parent)
  ∧ (∀ parent, columnCount (setSysroot root m) parent = columnCount m parent)
  ∧ (∀ index role, data fmt (setSysroot root m) index role = data fmt m index role)
  ∧ (∀ section orientation role,
       headerData tr (setSysroot root m) section orientation role
       = headerData tr m section orientation role)
  ∧ (∀ index, lineForIndex (setSysroot root m) index = lineForIndex m index)
  ∧ (∀ d, sourcePath (setSysroot root m) d = root +:+ "/" +:+ sourceFileName d)
  ∧ (∀ build fs d,
       fs (root +:+ "/" +:+ sourceFileName d) = None →
       setDisassembly build fs d (setSysroot root m) = Returned (setSysroot root m)).
Proof.
  repeat split.
  intros build fs d Hmissing. unfold setDisassembly.
  destruct (decide (sourceFileName d = "")); [done|].
  cbn [m_sysroot setSysroot]. unfold separator. by rewrite Hmissing.
Qed.

Lemma setSysroot_redirects_next_load_witness :
  ex_fs ("/usr/src" +:+ "/" +:+ sourceFileName ex_disassembly) = None ∧
  setDisassembly Debug ex_fs ex_disassembly (setSysroot "/usr/src" ex_fresh)
    = Returned (setSysroot "/usr/src" ex_fresh).
Proof.
  assert (Hmissing : ex_fs ("/usr/src" +:+ "/" +:+ sourceFileName ex_disassembly) = None)
    by reflexivity.
  split; [exact Hmissing|].
  destruct (setSysroot_redirects_next_load id ex_format "/usr/src" ex_fresh)
    as (_ & _ & _ & _ & _ & _ & Hload).
  exact (Hload Debug ex_fs ex_disassembly Hmissing).
Defined.
